(** * KYC front end: upload / verify workflow

    A shallow embedding of the client-side logic of the KYC front end
    (file staging, health probe, workflow controller, response
    projection) together with the properties its specification states. *)

From Stdlib Require Import Ascii.
From stdpp Require Import gmap strings list pretty.

Local Open Scope string_scope.
Local Open Scope Z_scope.

Set Warnings "-register-all,-clear-no-such-hyp".

(** ** JavaScript values

    The values that [JSON.parse] can produce, plus [undefined], which is
    what reading a missing property gives.  Objects are finite maps from
    property names to values.  Numbers are modelled as integers (the
    API's numeric fields are a 0..100 score, a confidence and a
    duration); the one falsy number is zero. *)

Inductive JsVal : Type :=
| JUndefined
| JNull
| JBool (b : bool)
| JNum (n : Z)
| JStr (s : string)
| JArr (xs : list JsVal)
| JObj (props : gmap string JsVal).

(** An exception: only its [message] is ever read by the program. *)
Record JsError : Type := mkError { message : string }.

(** Computations of a [try] block: either a value or a thrown error. *)
Definition Try (A : Type) : Type := JsError + A.

Definition ret {A} (a : A) : Try A := inr a.
Definition throw {A} (e : JsError) : Try A := inl e.

#[global] Instance try_ret : MRet Try := @ret.
#[global] Instance try_bind : MBind Try := λ A B k m,
  match m with
  | inl e => inl e
  | inr a => k a
  end.

(** [try { body } catch (error) { handler }] *)
Definition try_catch {A} (body : Try A) (handler : JsError → A) : A :=
  match body with
  | inl e => handler e
  | inr a => a
  end.

(** [ToBoolean]: the falsy values are [undefined], [null], [false], [0]
    and the empty string; arrays and objects are always truthy. *)
Definition truthy (v : JsVal) : bool :=
  match v with
  | JUndefined | JNull => false
  | JBool b => b
  | JNum n => negb (n =? 0)
  | JStr s => negb (String.eqb s "")
  | JArr _ | JObj _ => true
  end.

Definition nullish (v : JsVal) : bool :=
  match v with
  | JUndefined | JNull => true
  | _ => false
  end.

(** [a || d] *)
Definition js_or (a d : JsVal) : JsVal := if truthy a then a else d.

(** [a ?? d] *)
Definition js_coalesce (a d : JsVal) : JsVal := if nullish a then d else a.

Infix "|||" := js_or (at level 50, left associativity).
Infix "???" := js_coalesce (at level 50, left associativity).

(** [o.key]: reading a property of [null] or [undefined] throws a
    TypeError; an object yields its own property or [undefined].  On
    strings, numbers, booleans and arrays the lookup goes to the built-in
    prototypes, none of which defines any of the property names this
    program reads, so the result is [undefined]. *)
Definition get (o : JsVal) (key : string) : Try JsVal :=
  match o with
  | JUndefined =>
      throw (mkError ("Cannot read properties of undefined (reading '" +:+ key +:+ "')"))
  | JNull =>
      throw (mkError ("Cannot read properties of null (reading '" +:+ key +:+ "')"))
  | JObj props => ret (default JUndefined (props !! key))
  | _ => ret JUndefined
  end.

(** [o?.key]: short-circuits to [undefined] on [null] and [undefined]. *)
Definition get_opt (o : JsVal) (key : string) : JsVal :=
  match o with
  | JObj props => default JUndefined (props !! key)
  | _ => JUndefined
  end.

(** ** The result view model *)

Record Extracted : Type := mkExtracted {
  name : JsVal;
  dob : JsVal;
  id_number : JsVal;
  document_type : JsVal
}.

Record FraudDetails : Type := mkFraudDetails {
  age_validation : JsVal;
  expiry_validation : JsVal;
  name_validation : JsVal;
  id_validation : JsVal;
  consistency_issues : JsVal
}.

Record FraudFlags : Type := mkFraudFlags {
  has_fraud_indicators : JsVal;
  risk_level : JsVal;
  flags : JsVal;
  fraud_summary : JsVal;
  details : FraudDetails
}.

Record VerificationResult : Type := mkResult {
  verification_id : JsVal;
  success : JsVal;
  extracted : Extracted;
  trust_score : JsVal;
  face_confidence : JsVal;
  fraud_flags : FraudFlags;
  summary : JsVal;
  status : JsVal;
  timestamp : JsVal;
  processing_time : JsVal
}.

(** The object literal [transformedResult] of [handleVerifyKYC].  The
    property reads happen in source order; the first one throws when
    [apiResult] is [null]. *)
Definition transformedResult (apiResult : JsVal) : Try VerificationResult :=
  r_verification_id ← get apiResult "verification_id";
  r_success ← get apiResult "success";
  r_name ← get apiResult "name";
  r_dob ← get apiResult "dob";
  r_id_number ← get apiResult "id_number";
  r_document_type ← get apiResult "document_type";
  r_trust_score ← get apiResult "trust_score";
  r_face_confidence ← get apiResult "face_confidence";
  ff ← get apiResult "fraud_flags";
  let dt := get_opt ff "details" in
  r_summary ← get apiResult "summary";
  r_status ← get apiResult "status";
  r_timestamp ← get apiResult "timestamp";
  r_processing_time ← get apiResult "processing_time_ms";
  ret {|
    verification_id := r_verification_id;
    success := r_success;
    extracted := {|
      name := r_name ||| JStr "Unknown";
      dob := r_dob ||| JStr "Unknown";
      id_number := r_id_number ||| JStr "Unknown";
      document_type := r_document_type ||| JStr "unknown"
    |};
    trust_score := r_trust_score ??? JNum 0;
    face_confidence := r_face_confidence ??? JNum 0;
    fraud_flags := {|
      has_fraud_indicators := get_opt ff "has_fraud_indicators" ??? JBool false;
      risk_level := get_opt ff "risk_level" ||| JStr "unknown";
      flags := get_opt ff "flags" ||| JArr [];
      fraud_summary := get_opt ff "summary" ||| JStr "";
      details := {|
        age_validation := get_opt dt "age_validation" ||| JObj ∅;
        expiry_validation := get_opt dt "expiry_validation" ||| JObj ∅;
        name_validation := get_opt dt "name_validation" ||| JObj ∅;
        id_validation := get_opt dt "id_validation" ||| JObj ∅;
        consistency_issues := get_opt dt "consistency_issues" ||| JArr []
      |}
    |};
    summary := r_summary ||| JStr "Verification completed.";
    status := r_status ||| JStr "completed";
    timestamp := r_timestamp;
    processing_time := r_processing_time
  |}.

(** ** Files, workflow state, health state *)

(** A browser [File]: the three properties the program reads. *)
Record File : Type := mkFile {
  file_name : string;
  file_size : Z;
  file_type : string
}.

(** Object URLs handed out by [URL.createObjectURL], by serial number. *)
Definition BlobURL : Type := nat.

(** [{ file, preview }] *)
Record UploadedFile : Type := mkUploaded {
  file : File;
  preview : BlobURL
}.

(** [{ idCard, selfie }], [None] standing for [null]. *)
Record Files : Type := mkFiles {
  idCard : option File;
  selfie : option File
}.

(** [{ step, isLoading, result, error }] *)
Record Verification : Type := mkVerification {
  step : Z;
  isLoading : bool;
  result : option VerificationResult;
  error : option string
}.

(** [{ status, lastChecked, data?, error? }] *)
Record ApiHealth : Type := mkApiHealth {
  api_status : string;
  lastChecked : option string;
  data : option JsVal;
  api_error : option string
}.

(** ** The network *)

Record Request : Type := mkRequest {
  url : string;
  method : string;
  headers : list (string * string);
  formData : list (string * File)
}.

(** What [fetch] resolves to; [json] is the outcome of
    [await response.json()], which throws on a body that is not JSON. *)
Record Response : Type := mkResponse {
  resp_status : Z;
  statusText : string;
  json : Try JsVal
}.

(** [response.ok] *)
Definition ok (response : Response) : bool :=
  (200 <=? resp_status response) && (resp_status response <=? 299).

(** ** The session

    The [useState] cells of [KYCApp] and of [FileUpload], the browser's
    store of live object URLs, the number of verify requests awaiting
    their response, and the trace of the effects performed so far
    (oldest first). *)

Inductive Effect : Type :=
| Alert (msg : string)
| Fetch (req : Request)
| CreateObjectURL (f : File) (u : BlobURL)
| RevokeObjectURL (u : BlobURL)
| SetVerification (v : Verification)
| OnFilesSelect (fs : Files).

Record World : Type := mkWorld {
  files : Files;
  verification : Verification;
  apiHealth : ApiHealth;
  idCardFile : option UploadedFile;
  selfieFile : option UploadedFile;
  objectURLs : gset BlobURL;
  nextURL : BlobURL;
  pendingVerify : nat;
  trace : list Effect
}.

Definition emit (e : Effect) (w : World) : World :=
  mkWorld (files w) (verification w) (apiHealth w) (idCardFile w) (selfieFile w)
          (objectURLs w) (nextURL w) (pendingVerify w) (trace w ++ [e]).

Definition setFiles (fs : Files) (w : World) : World :=
  mkWorld fs (verification w) (apiHealth w) (idCardFile w) (selfieFile w)
          (objectURLs w) (nextURL w) (pendingVerify w) (trace w).

(** [setVerification(prev => f(prev))]; the installed value is traced. *)
Definition updateVerification (f : Verification → Verification) (w : World) : World :=
  emit (SetVerification (f (verification w)))
    (mkWorld (files w) (f (verification w)) (apiHealth w) (idCardFile w) (selfieFile w)
             (objectURLs w) (nextURL w) (pendingVerify w) (trace w)).

(** [setVerification(v)] *)
Definition setVerification (v : Verification) : World → World :=
  updateVerification (λ _, v).

Definition setApiHealth (h : ApiHealth) (w : World) : World :=
  mkWorld (files w) (verification w) h (idCardFile w) (selfieFile w)
          (objectURLs w) (nextURL w) (pendingVerify w) (trace w).

Definition setIdCardFile (f : option UploadedFile) (w : World) : World :=
  mkWorld (files w) (verification w) (apiHealth w) f (selfieFile w)
          (objectURLs w) (nextURL w) (pendingVerify w) (trace w).

Definition setSelfieFile (f : option UploadedFile) (w : World) : World :=
  mkWorld (files w) (verification w) (apiHealth w) (idCardFile w) f
          (objectURLs w) (nextURL w) (pendingVerify w) (trace w).

Definition setPending (n : nat) (w : World) : World :=
  mkWorld (files w) (verification w) (apiHealth w) (idCardFile w) (selfieFile w)
          (objectURLs w) (nextURL w) n (trace w).

(** [alert(msg)] *)
Definition alert (msg : string) : World → World := emit (Alert msg).

(** [URL.createObjectURL(f)]: a URL never handed out before. *)
Definition createObjectURL (f : File) (w : World) : BlobURL * World :=
  let u := nextURL w in
  (u, emit (CreateObjectURL f u)
        (mkWorld (files w) (verification w) (apiHealth w) (idCardFile w) (selfieFile w)
                 ({[u]} ∪ objectURLs w) (S u) (pendingVerify w) (trace w))).

(** [URL.revokeObjectURL(u)] *)
Definition revokeObjectURL (u : BlobURL) (w : World) : World :=
  emit (RevokeObjectURL u)
    (mkWorld (files w) (verification w) (apiHealth w) (idCardFile w) (selfieFile w)
             (objectURLs w ∖ {[u]}) (nextURL w) (pendingVerify w) (trace w)).

(** [if (f?.preview) URL.revokeObjectURL(f.preview)]; an object URL is a
    non-empty string, hence truthy whenever [f] is not [null]. *)
Definition revokePreview (f : option UploadedFile) (w : World) : World :=
  match f with
  | Some uf => revokeObjectURL (preview uf) w
  | None => w
  end.

(** The state of a freshly loaded page. *)
Definition idle : Verification :=
  {| step := 1; isLoading := false; result := None; error := None |}.

Definition initialWorld : World :=
  {| files := {| idCard := None; selfie := None |};
     verification := idle;
     apiHealth := {| api_status := "unknown"; lastChecked := None;
                     data := None; api_error := None |};
     idCardFile := None;
     selfieFile := None;
     objectURLs := ∅;
     nextURL := 0%nat;
     pendingVerify := 0%nat;
     trace := [] |}.

(** ** KYCApp *)

Definition healthURL : string := "http://127.0.0.1:8000/api/v1/kyc/health".
Definition verifyURL : string := "http://127.0.0.1:8000/api/v1/kyc/verify".

(** [checkApiHealth], given what the [fetch] settles to and the wall-clock
    string of [new Date().toLocaleTimeString()]. *)
Definition checkApiHealth (outcome : Try Response) (now : string) (w : World) : World :=
  let w := emit (Fetch {| url := healthURL; method := "GET";
                          headers := [("Content-Type", "application/json")];
                          formData := [] |}) w in
  try_catch
    (response ← outcome;
     if ok response then
       healthData ← json response;
       mret (setApiHealth {| api_status := "healthy"; lastChecked := Some now;
                             data := Some healthData; api_error := None |} w)
     else
       mret (setApiHealth {| api_status := "error"; lastChecked := Some now;
                             data := None;
                             api_error := Some ("HTTP " +:+ pretty (resp_status response)) |} w))
    (λ error,
       setApiHealth {| api_status := "error"; lastChecked := Some now;
                       data := None; api_error := Some (message error) |} w).

(** [handleFilesSelect]; a result object is always truthy. *)
Definition handleFilesSelect (newFiles : Files) (w : World) : World :=
  let w1 := setFiles newFiles w in
  match result (verification w) with
  | Some _ => setVerification idle w1
  | None => w1
  end.

(** [handleVerifyKYC] up to its [await fetch(...)]: the guard, the two
    state updates and the dispatch of the request.  Returns the request
    being awaited, if any. *)
Definition handleVerifyKYC_start (w : World) : World * option Request :=
  match idCard (files w), selfie (files w) with
  | Some id, Some sf =>
      let w1 := setVerification
                  {| step := 2; isLoading := true; result := None; error := None |} w in
      let w2 := updateVerification
                  (λ prev, {| step := 3; isLoading := isLoading prev;
                              result := result prev; error := error prev |}) w1 in
      let req := {| url := verifyURL; method := "POST"; headers := [];
                    formData := [("id_card", id); ("selfie", sf)] |} in
      (setPending (S (pendingVerify w2)) (emit (Fetch req) w2), Some req)
  | _, _ =>
      (alert "Please upload both ID document and selfie before verification." w, None)
  end.

(** The rest of [handleVerifyKYC], run when the [fetch] settles. *)
Definition handleVerifyKYC_resume (outcome : Try Response) (w : World) : World :=
  let w := setPending (Nat.pred (pendingVerify w)) w in
  try_catch
    (response ← outcome;
     if negb (ok response) then
       throw (mkError ("HTTP " +:+ pretty (resp_status response) +:+ ": "
                         +:+ statusText response))
     else
       apiResult ← json response;
       transformed ← transformedResult apiResult;
       mret (setVerification {| step := 4; isLoading := false;
                                result := Some transformed; error := None |} w))
    (λ error,
       setVerification {| step := 1; isLoading := false; result := None;
                          error := Some ("Verification failed: " +:+ message error) |} w).

(** A whole run of [handleVerifyKYC] against a network that answers the
    request [req] with [fetch req]. *)
Definition handleVerifyKYC (fetch : Request → Try Response) (w : World) : World :=
  match handleVerifyKYC_start w with
  | (w1, Some req) => handleVerifyKYC_resume (fetch req) w1
  | (w1, None) => w1
  end.

Definition handleStartOver (w : World) : World :=
  setVerification idle (setFiles {| idCard := None; selfie := None |} w).

(** [files.idCard && files.selfie && !verification.isLoading], as the
    boolean the [disabled={!canProceed}] attribute sees; a [File] is
    always truthy. *)
Definition canProceed (w : World) : bool :=
  match idCard (files w) with
  | None => false
  | Some _ =>
      match selfie (files w) with
      | None => false
      | Some _ => negb (isLoading (verification w))
      end
  end.

(** The [onFilesSelect] prop, bound by [KYCApp] to [handleFilesSelect];
    each call is traced. *)
Definition onFilesSelect (fs : Files) (w : World) : World :=
  handleFilesSelect fs (emit (OnFilesSelect fs) w).

(** ** FileUpload (the component rendered by [KYCApp])

    A handler reads the state cells of the render it was created in,
    here the world [w] it is started on. *)
Module FileUpload.

Definition maxSize : Z := 10 * 1024 * 1024.

Definition allowedTypes : list string :=
  ["image/jpeg"; "image/jpg"; "image/png"; "image/webp"].

(** [allowedTypes.includes(t)] *)
Definition includes (ts : list string) (t : string) : bool :=
  existsb (String.eqb t) ts.

(** [validateFile]: the error message, or [None] for [null]. *)
Definition validateFile (f : File) : option string :=
  if maxSize <? file_size f then
    Some "File size must be less than 10MB"
  else if negb (includes allowedTypes (file_type f)) then
    Some "Please upload a valid image file (JPEG, PNG, WebP)"
  else None.

Definition handleFileSelect (f : File) (type : string) (w : World) : World :=
  match validateFile f with
  | Some validationError => alert validationError w
  | None =>
      if String.eqb type "id" then
        let w1 := revokePreview (idCardFile w) w in
        let '(u, w2) := createObjectURL f w1 in
        let newFile := {| file := f; preview := u |} in
        let w3 := setIdCardFile (Some newFile) w2 in
        onFilesSelect {| idCard := Some f; selfie := file <$> selfieFile w |} w3
      else
        let w1 := revokePreview (selfieFile w) w in
        let '(u, w2) := createObjectURL f w1 in
        let newFile := {| file := f; preview := u |} in
        let w3 := setSelfieFile (Some newFile) w2 in
        onFilesSelect {| idCard := file <$> idCardFile w; selfie := Some f |} w3
  end.

Definition handleFileRemove (type : string) (w : World) : World :=
  if String.eqb type "id" then
    let w1 := revokePreview (idCardFile w) w in
    let w2 := setIdCardFile None w1 in
    onFilesSelect {| idCard := None; selfie := file <$> selfieFile w |} w2
  else
    let w1 := revokePreview (selfieFile w) w in
    let w2 := setSelfieFile None w1 in
    onFilesSelect {| idCard := file <$> idCardFile w; selfie := None |} w2.

End FileUpload.

(** ** FileUpload (the dropzone variant)

    Same cells, same props; files arrive through [onDrop] as the list of
    files the dropzone accepted, and an effect registered with an empty
    dependency list is meant to release the previews on unmount. *)
Module FileUploadDropzone.

Definition createFileWithPreview (f : File) (w : World) : UploadedFile * World :=
  let '(u, w1) := createObjectURL f w in
  ({| file := f; preview := u |}, w1).

Definition onDropIdCard (acceptedFiles : list File) (w : World) : World :=
  match acceptedFiles with
  | f :: _ =>
      let w1 := revokePreview (idCardFile w) w in
      let '(newFile, w2) := createFileWithPreview f w1 in
      let w3 := setIdCardFile (Some newFile) w2 in
      onFilesSelect {| idCard := Some f; selfie := file <$> selfieFile w |} w3
  | [] => w
  end.

Definition onDropSelfie (acceptedFiles : list File) (w : World) : World :=
  match acceptedFiles with
  | f :: _ =>
      let w1 := revokePreview (selfieFile w) w in
      let '(newFile, w2) := createFileWithPreview f w1 in
      let w3 := setSelfieFile (Some newFile) w2 in
      onFilesSelect {| idCard := file <$> idCardFile w; selfie := Some f |} w3
  | [] => w
  end.

Definition removeFile (type : string) (w : World) : World :=
  if String.eqb type "id" then
    let w1 := revokePreview (idCardFile w) w in
    let w2 := setIdCardFile None w1 in
    onFilesSelect {| idCard := None; selfie := file <$> selfieFile w |} w2
  else
    let w1 := revokePreview (selfieFile w) w in
    let w2 := setSelfieFile None w1 in
    onFilesSelect {| idCard := file <$> idCardFile w; selfie := None |} w2.

(** The function returned by the effect body: it releases the previews
    of the [idCardFile] and [selfieFile] it closed over. *)
Definition cleanup (idCardFile selfieFile : option UploadedFile) (w : World) : World :=
  revokePreview selfieFile (revokePreview idCardFile w).

(** Mounting: both cells start at [useState(null)], and the effect, whose
    dependency list is [[]], runs once, after this first render.  The
    cleanup it registers therefore closes over the first render's
    cells.  Returns the world with the fresh cells and the registered
    cleanup. *)
Definition mount (w : World) : World * (World → World) :=
  let w0 := setSelfieFile None (setIdCardFile None w) in
  (w0, cleanup (idCardFile w0) (selfieFile w0)).

(** Unmounting runs the registered cleanup; the cells are gone
    afterwards. *)
Definition unmount (registered : World → World) (w : World) : World :=
  setSelfieFile None (setIdCardFile None (registered w)).

End FileUploadDropzone.

(** ** Sessions

    What can happen to a page showing [KYCApp]: the user operates one of
    the controls the page currently renders enabled, or a pending verify
    request settles. *)

Inductive Event : Type :=
| SelectFile (f : File) (type : string)
| RemoveFile (type : string)
| ClickVerify
| VerifySettled (outcome : Try Response)
| ClickStartOver
| RefreshHealth (outcome : Try Response) (now : string).

Definition present {A} (o : option A) : bool :=
  match o with Some _ => true | None => false end.

(** The cell shown by the upload area of the given [type]. *)
Definition uploadedFile (type : string) (w : World) : option UploadedFile :=
  if String.eqb type "id" then idCardFile w else selfieFile w.

(** The markup of [KYCApp] and [FileUpload]: which control exists and is
    not [disabled]. *)
Definition enabled (e : Event) (w : World) : bool :=
  match e with
  | SelectFile _ type =>
      negb (present (result (verification w)))
      && negb (isLoading (verification w))
      && (String.eqb type "id" || String.eqb type "selfie")
  | RemoveFile type =>
      negb (present (result (verification w)))
      && negb (isLoading (verification w))
      && (String.eqb type "id" || String.eqb type "selfie")
      && present (uploadedFile type w)
  | ClickVerify =>
      negb (present (result (verification w)))
      && (present (idCard (files w)) || present (selfie (files w)))
      && canProceed w
  | VerifySettled _ => negb (Nat.eqb (pendingVerify w) 0)
  | ClickStartOver => present (result (verification w))
  | RefreshHealth _ _ => true
  end.

Definition handle (e : Event) (w : World) : World :=
  match e with
  | SelectFile f type => FileUpload.handleFileSelect f type w
  | RemoveFile type => FileUpload.handleFileRemove type w
  | ClickVerify => fst (handleVerifyKYC_start w)
  | VerifySettled outcome => handleVerifyKYC_resume outcome w
  | ClickStartOver => handleStartOver w
  | RefreshHealth outcome now => checkApiHealth outcome now w
  end.

(** [KYCApp] renders [FileUpload] only while there is no result.  When a
    result arrives the component is unmounted and its cells are lost (it
    registers no cleanup); the next mount starts from [useState(null)]. *)
Definition render (w : World) : World :=
  match result (verification w) with
  | Some _ => setSelfieFile None (setIdCardFile None w)
  | None => w
  end.

Definition dispatch (e : Event) (w : World) : World := render (handle e w).

Inductive reachable : World → Prop :=
| reachable_init : reachable initialWorld
| reachable_dispatch e w :
    reachable w → enabled e w = true → reachable (dispatch e w).

(** Running a script of events, stopping at the first one that the page
    does not offer. *)
Fixpoint run (es : list Event) (w : World) : option World :=
  match es with
  | [] => Some w
  | e :: es' => if enabled e w then run es' (dispatch e w) else None
  end.

(** The states installed by [setVerification], in order. *)
Definition installed (tr : list Effect) : list Verification :=
  omap (λ e, match e with SetVerification v => Some v | _ => None end) tr.

(** The calls of [fetch]. *)
Definition fetched (tr : list Effect) : list Request :=
  omap (λ e, match e with Fetch r => Some r | _ => None end) tr.

(** The object URLs passed to [URL.revokeObjectURL], in order. *)
Definition revoked (tr : list Effect) : list BlobURL :=
  omap (λ e, match e with RevokeObjectURL u => Some u | _ => None end) tr.

(** The calls of [onFilesSelect]. *)
Definition notified (tr : list Effect) : list Files :=
  omap (λ e, match e with OnFilesSelect fs => Some fs | _ => None end) tr.

(** The object URLs handed out by [URL.createObjectURL]. *)
Definition created (tr : list Effect) : list BlobURL :=
  omap (λ e, match e with CreateObjectURL _ u => Some u | _ => None end) tr.

(** ** The field table of the specification

    The ways a row of the table of §6 relates the raw value [raw] found
    at a source path (if any) to the output field [out]. *)

(** A row whose default is substituted with [||]: the output is the raw
    value when there is one and it is truthy, and the default when the
    source is absent or its value is falsy. *)
Definition row_or (raw : option JsVal) (out dflt : JsVal) : Prop :=
  match raw with
  | Some v => if truthy v then out = v else out = dflt
  | None => out = dflt
  end.

(** A row whose default is substituted with [??]: the output is the raw
    value when there is one and it is not [null], and the default when the
    source is absent or [null]. *)
Definition row_coalesce (raw : option JsVal) (out dflt : JsVal) : Prop :=
  match raw with
  | Some v => if nullish v then out = dflt else out = v
  | None => out = dflt
  end.

(** "passthrough, no default substitution": the raw value, or
    [undefined] when there is none *)
Definition passthrough (raw : option JsVal) (out : JsVal) : Prop :=
  out = default JUndefined raw.

(** The raw value at [key] below the raw value [parent]. *)
Definition below (parent : option JsVal) (key : string) : option JsVal :=
  match parent with
  | Some (JObj props) => props !! key
  | _ => None
  end.

(** [hay] contains [needle]. *)
Definition contains (hay needle : string) : Prop :=
  ∃ pre post, hay = pre +:+ needle +:+ post.

(** The response body of the specification's scenario:
    [{status:"approved", trust_score:92, name:"Jane Doe"}]. *)
Definition janeDoe : gmap string JsVal :=
  <["status" := JStr "approved"]>
    (<["trust_score" := JNum 92]> (<["name" := JStr "Jane Doe"]> ∅)).

(** What [||] does to a raw value ([undefined] when absent): any falsy
    value, the empty string among them, gives way to the default. *)
Definition falsy_defaults_to (raw out dflt : JsVal) : Prop :=
  (truthy raw = false → out = dflt) ∧ (raw = JStr "" → out = dflt).

(** What [??] does to a raw value: only [null] and [undefined] give way
    to the default, so a zero is kept. *)
Definition nullish_defaults_to (raw out dflt : JsVal) : Prop :=
  (nullish raw = true → out = dflt)
  ∧ (nullish raw = false → out = raw)
  ∧ (raw = JNum 0 → out = JNum 0).

(** The files of the specification's scenario, and the session in which
    they have been staged. *)
Definition idJpeg : File :=
  {| file_name := "id.jpg"; file_size := 5 * 1024 * 1024; file_type := "image/jpeg" |}.

Definition selfiePng : File :=
  {| file_name := "selfie.png"; file_size := 2 * 1024 * 1024; file_type := "image/png" |}.

Definition stagedWorld : World :=
  FileUpload.handleFileSelect selfiePng "selfie"
    (FileUpload.handleFileSelect idJpeg "id" initialWorld).

(** An HTTP 500 answer. *)
Definition http500 : Response :=
  {| resp_status := 500; statusText := "Internal Server Error";
     json := inl (mkError "Unexpected token I in JSON at position 0") |}.

(** An oversized file of a type that is not allowed either. *)
Definition bigGif : File :=
  {| file_name := "scan.gif"; file_size := 11 * 1024 * 1024; file_type := "image/gif" |}.

(** A 2xx answer without a JSON body. *)
Definition http204 : Response :=
  {| resp_status := 204; statusText := "No Content";
     json := inl (mkError "Unexpected end of JSON input") |}.

(** ** Invariants *)

(** The four phases of the workflow: the pair of step and loading flag
    is one of (1, false), (2, true), (3, true), (4, false), so that the
    flag is set exactly in steps 2 and 3; result and error are never both
    there. *)
Definition phase_ok (v : Verification) : Prop :=
  ((step v, isLoading v) = (1, false) ∨ (step v, isLoading v) = (2, true)
   ∨ (step v, isLoading v) = (3, true) ∨ (step v, isLoading v) = (4, false))
  ∧ (isLoading v = true ↔ step v = 2 ∨ step v = 3)
  ∧ (result v = None ∨ error v = None).

(** The workflow state and every state installed so far are phases, and
    the loading flag is set exactly while the one verify request is
    awaiting its response, during which no result is shown. *)
Definition session_ok (w : World) : Prop :=
  phase_ok (verification w)
  ∧ Forall phase_ok (installed (trace w))
  ∧ (isLoading (verification w) = true →
     pendingVerify w = 1%nat ∧ result (verification w) = None)
  ∧ (isLoading (verification w) = false → pendingVerify w = 0%nat).

(** [w'] is [w] after some handler has installed the workflow states
    [new], all of them phases, in this order. *)
Definition installs_phases (w w' : World) : Prop :=
  ∃ new,
    installed (trace w') = (installed (trace w) ++ new)%list
    ∧ Forall phase_ok new
    ∧ verification w' = default (verification w) (last new).

(** The object URL held by a cell of [FileUpload]. *)
Definition previewOf (cell : option UploadedFile) : gset BlobURL :=
  match cell with
  | Some uf => {[preview uf]}
  | None => ∅
  end.

(** [live], the object URLs not yet revoked, are the previews [a] and [b]
    of the two slots, which differ; the object URLs handed out so far are
    those below [next], and [revokedSoFar] lists, without repetition,
    exactly those of them that are no longer live. *)
Definition tidy (live a b : gset BlobURL) (next : BlobURL)
    (revokedSoFar : list BlobURL) : Prop :=
  live = a ∪ b
  ∧ a ## b
  ∧ (∀ u, u ∈ live → (u < next)%nat)
  ∧ NoDup revokedSoFar
  ∧ (∀ u, u ∈ revokedSoFar ↔ (u < next)%nat ∧ u ∉ live).

(** At most one preview is live per slot, and every preview that was
    replaced or removed has been released exactly once. *)
Definition previews_ok (w : World) : Prop :=
  tidy (objectURLs w) (previewOf (idCardFile w)) (previewOf (selfieFile w))
       (nextURL w) (revoked (trace w)).

(** The operations of file staging, of either variant of [FileUpload]. *)
Inductive StagingOp : Type :=
| Select (f : File) (type : string)
| Remove (type : string)
| DropIdCard (acceptedFiles : list File)
| DropSelfie (acceptedFiles : list File)
| DropRemove (type : string).

Definition stage (w : World) (op : StagingOp) : World :=
  match op with
  | Select f type => FileUpload.handleFileSelect f type w
  | Remove type => FileUpload.handleFileRemove type w
  | DropIdCard fs => FileUploadDropzone.onDropIdCard fs w
  | DropSelfie fs => FileUploadDropzone.onDropSelfie fs w
  | DropRemove type => FileUploadDropzone.removeFile type w
  end.

(** ** Presentation

    The parts of the markup that compute something from the state. *)

(** [xs[i]] for a number [i]: [undefined] outside the array. *)
Definition js_index {A} (xs : list A) (i : Z) : option A :=
  if i <? 0 then None else xs !! Z.to_nat i.

(** The API status line of [KYCApp]. *)
Definition apiStatusText (h : ApiHealth) : string :=
  if String.eqb (api_status h) "healthy" then "Online"
  else if String.eqb (api_status h) "error" then "Offline"
  else "Checking...".

(** The progress bar defined next to [KYCApp]. *)
Module ProgressBar.

Record Step : Type := mkStep {
  number : Z;
  title : string;
  description : string
}.

Definition steps : list Step :=
  [ {| number := 1; title := "Upload Documents"; description := "Select your files" |};
    {| number := 2; title := "Uploading"; description := "Sending files securely" |};
    {| number := 3; title := "Analyzing"; description := "AI processing documents" |};
    {| number := 4; title := "Complete"; description := "Verification finished" |} ].

(** [currentStep >= step.number]: the circle is filled. *)
Definition filled (currentStep : Z) (s : Step) : bool := number s <=? currentStep.

(** [currentStep === step.number && isLoading]: the circle pulses. *)
Definition pulses (currentStep : Z) (isLoading : bool) (s : Step) : bool :=
  (currentStep =? number s) && isLoading.

(** [index < steps.length - 1 && currentStep > step.number]: the
    connector after the circle is drawn, and drawn filled. *)
Definition connectorFilled (currentStep : Z) (index : nat) (s : Step) : bool :=
  (Z.of_nat index <? Z.of_nat (length steps) - 1) && (number s <? currentStep).

(** [steps[currentStep - 1]], whose title and description are shown
    below the circles. *)
Definition current (currentStep : Z) : option Step :=
  js_index steps (currentStep - 1).

End ProgressBar.

(** The progress bar component of the [components] directory. *)
Module ProgressBarComponent.

Record Step : Type := mkStep {
  id : Z;
  title : string;
  description : string
}.

Definition steps : list Step :=
  [ {| id := 1; title := "Upload"; description := "Upload your documents" |};
    {| id := 2; title := "Extract"; description := "Extracting information" |};
    {| id := 3; title := "Verify"; description := "Verifying identity" |};
    {| id := 4; title := "Complete"; description := "Verification complete" |} ].

Definition isActive (currentStep : Z) (s : Step) : bool := currentStep =? id s.

Definition isCompleted (currentStep : Z) (s : Step) : bool := id s <? currentStep.

(** [isActive && isLoading]: the icon spins. *)
Definition spins (currentStep : Z) (isLoading : bool) (s : Step) : bool :=
  isActive currentStep s && isLoading.

(** [steps.find(step => step.id === currentStep)], whose description is
    shown while loading. *)
Definition info (currentStep : Z) : option Step :=
  List.find (λ s, id s =? currentStep) steps.

End ProgressBarComponent.

(** The result card of the [components] directory: the trust score band
    and the rows for the extracted fields. *)
Module ResultCard.

Definition getTrustScoreColor (score : Z) : string :=
  if 80 <=? score then "success"
  else if 50 <=? score then "warning"
  else "destructive".

(** The icon component, by name. *)
Definition getTrustScoreIcon (score : Z) : string :=
  if 80 <=? score then "CheckCircle"
  else if 50 <=? score then "AlertTriangle"
  else "XCircle".

Definition getTrustScoreLabel (score : Z) : string :=
  if 80 <=? score then "High Trust"
  else if 50 <=? score then "Medium Trust"
  else "Low Trust".

(** [key.replace(/_/g, ' ')] *)
Fixpoint replaceUnderscores (key : string) : string :=
  match key with
  | EmptyString => EmptyString
  | String c rest =>
      String (if Ascii.eqb c "_" then " "%char else c) (replaceUnderscores rest)
  end.

(** The keys that have a row of their own. *)
Definition ownRows : list string := ["name"; "dob"; "id_number"].

(** The "additional fields": the entries of [extracted], as
    [Object.entries] lists them, without those that have a row of their
    own, each with the label shown for its key. *)
Definition additionalFields (entries : list (string * JsVal))
    : list (string * JsVal) :=
  map (λ kv, (replaceUnderscores kv.1, kv.2))
      (List.filter (λ kv, negb (FileUpload.includes ownRows kv.1)) entries).

End ResultCard.

(** ** Further invariants *)

(** The states the workflow is in between two events. *)
Definition analyzing : Verification :=
  {| step := 3; isLoading := true; result := None; error := None |}.

Definition settled_form (v : Verification) : Prop :=
  v = idle
  ∨ v = analyzing
  ∨ (∃ r, v = {| step := 4; isLoading := false; result := Some r; error := None |})
  ∨ (∃ msg, v = {| step := 1; isLoading := false; result := None; error := Some msg |}).

(** While the upload view is shown, the files [KYCApp] holds are the
    files in the slots of [FileUpload]; while a result is shown, the
    component is unmounted and has no slots. *)
Definition files_in_sync (w : World) : Prop :=
  match result (verification w) with
  | None =>
      idCard (files w) = file <$> idCardFile w
      ∧ selfie (files w) = file <$> selfieFile w
  | Some _ => idCardFile w = None ∧ selfieFile w = None
  end.

(** The health record is one of: never probed, healthy with its
    payload, or in error with its message. *)
Definition health_ok (h : ApiHealth) : Prop :=
  (api_status h = "unknown" ∧ lastChecked h = None ∧ data h = None ∧ api_error h = None)
  ∨ (api_status h = "healthy" ∧ is_Some (lastChecked h) ∧ is_Some (data h)
     ∧ api_error h = None)
  ∨ (api_status h = "error" ∧ is_Some (lastChecked h) ∧ data h = None
     ∧ is_Some (api_error h)).

(** The property names the projection reads from the response body. *)
Definition readKeys : list string :=
  ["verification_id"; "success"; "name"; "dob"; "id_number"; "document_type";
   "trust_score"; "face_confidence"; "fraud_flags"; "summary"; "status";
   "timestamp"; "processing_time_ms"].

(** * Properties *)

(** ** Operators and property reads *)

Lemma js_or_truthy a d : truthy a = true → a ||| d = a.
Proof. unfold js_or. by intros ->. Qed.

Lemma js_or_falsy a d : truthy a = false → a ||| d = d.
Proof. unfold js_or. by intros ->. Qed.

Lemma js_coalesce_nullish a d : nullish a = true → a ??? d = d.
Proof. unfold js_coalesce. by intros ->. Qed.

Lemma js_coalesce_value a d : nullish a = false → a ??? d = a.
Proof. unfold js_coalesce. by intros ->. Qed.

Lemma nullish_falsy a : nullish a = true → truthy a = false.
Proof. by destruct a. Qed.

Lemma js_or_populated a d : nullish d = false → nullish (a ||| d) = false.
Proof.
  intros Hd. unfold js_or. destruct (truthy a) eqn:Ha; [|done].
  destruct (nullish a) eqn:Hn; [|done].
  apply nullish_falsy in Hn. congruence.
Qed.

Lemma js_coalesce_populated a d : nullish d = false → nullish (a ??? d) = false.
Proof. intros Hd. unfold js_coalesce. by destruct (nullish a) eqn:Ha. Qed.

Lemma get_opt_below parent key :
  get_opt (default JUndefined parent) key = default JUndefined (below parent key).
Proof. by destruct parent as [[]|]. Qed.

(** On an object every property read succeeds, so the projection is the
    object literal itself. *)
Lemma transformedResult_object props :
  let raw key := default JUndefined (props !! key) in
  let ff := raw "fraud_flags" in
  let dt := get_opt ff "details" in
  transformedResult (JObj props) = inr {|
    verification_id := raw "verification_id";
    success := raw "success";
    extracted := {|
      name := raw "name" ||| JStr "Unknown";
      dob := raw "dob" ||| JStr "Unknown";
      id_number := raw "id_number" ||| JStr "Unknown";
      document_type := raw "document_type" ||| JStr "unknown"
    |};
    trust_score := raw "trust_score" ??? JNum 0;
    face_confidence := raw "face_confidence" ??? JNum 0;
    fraud_flags := {|
      has_fraud_indicators := get_opt ff "has_fraud_indicators" ??? JBool false;
      risk_level := get_opt ff "risk_level" ||| JStr "unknown";
      flags := get_opt ff "flags" ||| JArr [];
      fraud_summary := get_opt ff "summary" ||| JStr "";
      details := {|
        age_validation := get_opt dt "age_validation" ||| JObj ∅;
        expiry_validation := get_opt dt "expiry_validation" ||| JObj ∅;
        name_validation := get_opt dt "name_validation" ||| JObj ∅;
        id_validation := get_opt dt "id_validation" ||| JObj ∅;
        consistency_issues := get_opt dt "consistency_issues" ||| JArr []
      |}
    |};
    summary := raw "summary" ||| JStr "Verification completed.";
    status := raw "status" ||| JStr "completed";
    timestamp := raw "timestamp";
    processing_time := raw "processing_time_ms"
  |}.
Proof. reflexivity. Qed.


(** ** The projection (§6) *)

Lemma row_or_intro raw d : row_or raw (default JUndefined raw ||| d) d.
Proof.
  destruct raw as [v|]; cbn; [|done].
  unfold js_or. by destruct (truthy v).
Qed.

Lemma row_coalesce_intro raw d :
  row_coalesce raw (default JUndefined raw ??? d) d.
Proof.
  destruct raw as [v|]; cbn; [|done].
  unfold js_coalesce. by destruct (nullish v).
Qed.

(** The [try] block after a response that is 2xx and whose body
    projects. *)
Lemma handleVerifyKYC_resolves w fetch response body r :
  present (idCard (files w)) = true →
  present (selfie (files w)) = true →
  (∀ req, fetch req = inr response) →
  ok response = true →
  json response = inr body →
  transformedResult body = inr r →
  verification (handleVerifyKYC fetch w)
  = {| step := 4; isLoading := false; result := Some r; error := None |}.
Proof.
  intros Hid Hsf Hfetch Hok Hjson Hr.
  unfold handleVerifyKYC, handleVerifyKYC_start.
  destruct (idCard (files w)); [|done]. destruct (selfie (files w)); [|done].
  unfold handleVerifyKYC_resume. rewrite Hfetch. cbn. rewrite Hok. cbn.
  rewrite Hjson. cbn. by rewrite Hr.
Qed.

Ltac rows :=
  cbn [name dob id_number document_type extracted trust_score face_confidence
       fraud_flags has_fraud_indicators risk_level flags fraud_summary details
       age_validation expiry_validation name_validation id_validation
       consistency_issues summary status verification_id success timestamp
       processing_time];
  repeat match goal with |- _ ∧ _ => split end;
  rewrite ?get_opt_below;
  first [apply row_or_intro | apply row_coalesce_intro | reflexivity | idtac].

(** C1, as amended.  A verify request that is answered with a 2xx status
    and a JSON body other than [null] ends in step 4 with the projection
    of that body as result, and the projection is determined row by row
    by the raw value at the source path (there is none when the body is
    not an object).  A row with a [||] default shows the raw value when
    it is present and truthy and the documented default when the source
    is absent or falsy; a row with a [??] default (trust score, face
    confidence, fraud indicator) shows the raw value when it is present
    and not [null] and the default when the source is absent or [null];
    [verification_id], [success] and [timestamp] are the same-named raw
    fields and [processing_time] is the raw field [processing_time_ms],
    each [undefined] when absent.  For the body
    [{status:"approved", trust_score:92, name:"Jane Doe"}] this gives
    trust score 92, name "Jane Doe", date of birth "Unknown" and no fraud
    flags. *)
Theorem verify_success_projection
    (w : World) (fetch : Request → Try Response)
    (response : Response) (body : JsVal) :
  present (idCard (files w)) = true →
  present (selfie (files w)) = true →
  (∀ req, fetch req = inr response) →
  ok response = true →
  json response = inr body →
  nullish body = false →
  ∃ r,
    transformedResult body = inr r
    ∧ verification (handleVerifyKYC fetch w)
      = {| step := 4; isLoading := false; result := Some r; error := None |}
    ∧ (let raw := below (Some body) in
       let ff := below (raw "fraud_flags") in
       let dt := below (ff "details") in
       row_or (raw "name") (name (extracted r)) (JStr "Unknown")
       ∧ row_or (raw "dob") (dob (extracted r)) (JStr "Unknown")
       ∧ row_or (raw "id_number") (id_number (extracted r)) (JStr "Unknown")
       ∧ row_or (raw "document_type") (document_type (extracted r)) (JStr "unknown")
       ∧ row_coalesce (raw "trust_score") (trust_score r) (JNum 0)
       ∧ row_coalesce (raw "face_confidence") (face_confidence r) (JNum 0)
       ∧ row_coalesce (ff "has_fraud_indicators")
           (has_fraud_indicators (fraud_flags r)) (JBool false)
       ∧ row_or (ff "risk_level") (risk_level (fraud_flags r)) (JStr "unknown")
       ∧ row_or (ff "flags") (flags (fraud_flags r)) (JArr [])
       ∧ row_or (ff "summary") (fraud_summary (fraud_flags r)) (JStr "")
       ∧ row_or (dt "age_validation")
           (age_validation (details (fraud_flags r))) (JObj ∅)
       ∧ row_or (dt "expiry_validation")
           (expiry_validation (details (fraud_flags r))) (JObj ∅)
       ∧ row_or (dt "name_validation")
           (name_validation (details (fraud_flags r))) (JObj ∅)
       ∧ row_or (dt "id_validation")
           (id_validation (details (fraud_flags r))) (JObj ∅)
       ∧ row_or (dt "consistency_issues")
           (consistency_issues (details (fraud_flags r))) (JArr [])
       ∧ row_or (raw "summary") (summary r) (JStr "Verification completed.")
       ∧ row_or (raw "status") (status r) (JStr "completed")
       ∧ passthrough (raw "verification_id") (verification_id r)
       ∧ passthrough (raw "success") (success r)
       ∧ passthrough (raw "timestamp") (timestamp r)
       ∧ passthrough (raw "processing_time_ms") (processing_time r))
    ∧ (body = JObj janeDoe →
       step (verification (handleVerifyKYC fetch w)) = 4
       ∧ trust_score r = JNum 92
       ∧ name (extracted r) = JStr "Jane Doe"
       ∧ dob (extracted r) = JStr "Unknown"
       ∧ flags (fraud_flags r) = JArr []).
Proof.
  intros Hid Hsf Hfetch Hok Hjson Hbody.
  assert (Hr : ∃ r, transformedResult body = inr r).
  { destruct body; try done; by eexists. }
  destruct Hr as [r Hr]. exists r.
  pose proof (handleVerifyKYC_resolves w fetch response body r
                Hid Hsf Hfetch Hok Hjson Hr) as Hv.
  split; [done|]. split; [done|]. split.
  - cbv zeta. unfold passthrough.
    destruct body as [| | b | n | s | xs | props]; try done.
    1-4: injection Hr as <-; by split_and!.
    rewrite transformedResult_object in Hr. injection Hr as <-. cbn [below].
    rows.
  - intros ->. rewrite Hv. rewrite transformedResult_object in Hr.
    injection Hr as <-. by vm_compute.
Qed.

Lemma verify_success_projection_witness :
  ∃ r,
    verification
      (handleVerifyKYC (λ _, inr (mkResponse 200 "OK" (inr (JObj janeDoe)))) stagedWorld)
    = {| step := 4; isLoading := false; result := Some r; error := None |}
    ∧ trust_score r = JNum 92
    ∧ name (extracted r) = JStr "Jane Doe"
    ∧ dob (extracted r) = JStr "Unknown"
    ∧ flags (fraud_flags r) = JArr [].
Proof.
  destruct (verify_success_projection stagedWorld
              (λ _, inr (mkResponse 200 "OK" (inr (JObj janeDoe))))
              (mkResponse 200 "OK" (inr (JObj janeDoe))) (JObj janeDoe)
              eq_refl eq_refl (λ _, eq_refl) eq_refl eq_refl eq_refl)
    as (r & _ & Hv & _ & Hjane).
  exists r. split; [exact Hv|].
  exact (proj2 (Hjane eq_refl)).
Defined.

(** C1, as stated, fails in three ways.  A raw field named
    [processing_time] is not passed through: the projection reads
    [processing_time_ms].  A source that is present but falsy is not
    shown: a present empty [name] gives "Unknown", and a present [null]
    trust score gives 0.  And a 2xx body that is JSON [null] has no
    projection at all: the first property read throws. *)
Lemma processing_time_counterexample :
  (∃ r,
     transformedResult (JObj {["processing_time" := JNum 1500]}) = inr r
     ∧ get (JObj {["processing_time" := JNum 1500]}) "processing_time" = inr (JNum 1500)
     ∧ processing_time r = JUndefined
     ∧ ¬ passthrough (({["processing_time" := JNum 1500]} : gmap string JsVal)
                        !! "processing_time") (processing_time r))
  ∧ (∃ r,
       transformedResult
         (JObj (<["name" := JStr ""]> {["trust_score" := JNull]})) = inr r
       ∧ get (JObj (<["name" := JStr ""]> {["trust_score" := JNull]})) "name"
         = inr (JStr "")
       ∧ name (extracted r) = JStr "Unknown"
       ∧ get (JObj (<["name" := JStr ""]> {["trust_score" := JNull]})) "trust_score"
         = inr JNull
       ∧ trust_score r = JNum 0)
  ∧ (∃ e, transformedResult JNull = inl e).
Proof.
  split_and!; [| | by eexists].
  - eexists. split; [apply transformedResult_object|].
    repeat split. by vm_compute.
  - eexists. split; [apply transformedResult_object|].
    by split_and!; vm_compute.
Qed.

(** C3.  On every JSON object, however sparse, the projection returns a
    result (it does not throw), and every field that has a documented
    default is populated: neither [null] nor [undefined]. *)
Theorem transformedResult_total (props : gmap string JsVal) :
  ∃ r,
    transformedResult (JObj props) = inr r
    ∧ nullish (name (extracted r)) = false
    ∧ nullish (dob (extracted r)) = false
    ∧ nullish (id_number (extracted r)) = false
    ∧ nullish (document_type (extracted r)) = false
    ∧ nullish (trust_score r) = false
    ∧ nullish (face_confidence r) = false
    ∧ nullish (has_fraud_indicators (fraud_flags r)) = false
    ∧ nullish (risk_level (fraud_flags r)) = false
    ∧ nullish (flags (fraud_flags r)) = false
    ∧ nullish (fraud_summary (fraud_flags r)) = false
    ∧ nullish (age_validation (details (fraud_flags r))) = false
    ∧ nullish (expiry_validation (details (fraud_flags r))) = false
    ∧ nullish (name_validation (details (fraud_flags r))) = false
    ∧ nullish (id_validation (details (fraud_flags r))) = false
    ∧ nullish (consistency_issues (details (fraud_flags r))) = false
    ∧ nullish (summary r) = false
    ∧ nullish (status r) = false.
Proof.
  eexists. split; [apply transformedResult_object|].
  repeat split; cbn;
    first [by apply js_or_populated | by apply js_coalesce_populated].
Qed.

(** C10.  The string-valued fields are built with [||]: whenever the raw
    value is falsy, a present empty string included, the default is
    shown.  The two scores are built with [??]: the default 0 replaces
    only [null] and [undefined], and a present 0 is kept. *)
Theorem falsy_defaults (props : gmap string JsVal) (r : VerificationResult) :
  transformedResult (JObj props) = inr r →
  let raw key := default JUndefined (props !! key) in
  let ff key := default JUndefined (below (props !! "fraud_flags") key) in
  falsy_defaults_to (raw "name") (name (extracted r)) (JStr "Unknown")
  ∧ falsy_defaults_to (raw "dob") (dob (extracted r)) (JStr "Unknown")
  ∧ falsy_defaults_to (raw "id_number") (id_number (extracted r)) (JStr "Unknown")
  ∧ falsy_defaults_to (raw "document_type") (document_type (extracted r)) (JStr "unknown")
  ∧ falsy_defaults_to (ff "risk_level") (risk_level (fraud_flags r)) (JStr "unknown")
  ∧ falsy_defaults_to (ff "summary") (fraud_summary (fraud_flags r)) (JStr "")
  ∧ falsy_defaults_to (raw "summary") (summary r) (JStr "Verification completed.")
  ∧ falsy_defaults_to (raw "status") (status r) (JStr "completed")
  ∧ nullish_defaults_to (raw "trust_score") (trust_score r) (JNum 0)
  ∧ nullish_defaults_to (raw "face_confidence") (face_confidence r) (JNum 0).
Proof.
  rewrite transformedResult_object. intros [= <-]. cbv beta zeta.
  rewrite <- !get_opt_below.
  repeat match goal with |- _ ∧ _ => split end;
    unfold falsy_defaults_to, nullish_defaults_to; cbn;
    repeat split;
    try (by apply js_or_falsy); try (by intros ->);
    try (by apply js_coalesce_nullish); try (by apply js_coalesce_value).
Qed.

Lemma falsy_defaults_witness :
  ∃ r,
    transformedResult
      (JObj (<["name" := JStr ""]> (<["trust_score" := JNum 0]> ∅))) = inr r
    ∧ name (extracted r) = JStr "Unknown"
    ∧ trust_score r = JNum 0.
Proof.
  eexists. split; [apply transformedResult_object|].
  pose proof (falsy_defaults
                (<["name" := JStr ""]> (<["trust_score" := JNum 0]> ∅)) _
                (transformedResult_object _)) as (Hname & _ & _ & _ & _ & _ & _ & _ & Hts & _).
  split.
  - exact (proj2 Hname eq_refl).
  - exact (proj2 (proj2 Hts) eq_refl).
Defined.

(** ** The workflow controller (§4.2) *)

Ltac trace_simpl :=
  unfold installed, fetched, revoked, notified, created; cbn;
  rewrite ?omap_app; cbn; rewrite ?(right_id_L [] (++)).

Lemma append_empty_r s : s +:+ "" = s.
Proof.
  induction s as [|c s IH]; [done|].
  change (String c (s +:+ "") = String c s). by f_equal.
Qed.

Lemma append_assoc s t u : s +:+ (t +:+ u) = (s +:+ t) +:+ u.
Proof.
  induction s as [|c s IH]; [done|].
  change (String c (s +:+ (t +:+ u)) = String c ((s +:+ t) +:+ u)). by f_equal.
Qed.

Lemma contains_suffix pre s : contains (pre +:+ s) s.
Proof. exists pre, "". by rewrite append_empty_r. Qed.

(** With both files staged, the first part of [handleVerifyKYC] leaves
    the workflow in step 3, loading, and dispatches one request. *)
Lemma handleVerifyKYC_start_staged w id sf :
  idCard (files w) = Some id →
  selfie (files w) = Some sf →
  ∃ w1 req,
    handleVerifyKYC_start w = (w1, Some req)
    ∧ formData req = [("id_card", id); ("selfie", sf)]
    ∧ verification w1
      = {| step := 3; isLoading := true; result := None; error := None |}
    ∧ files w1 = files w
    ∧ idCardFile w1 = idCardFile w
    ∧ selfieFile w1 = selfieFile w
    ∧ objectURLs w1 = objectURLs w
    ∧ pendingVerify w1 = S (pendingVerify w)
    ∧ installed (trace w1)
      = (installed (trace w)
         ++ [ {| step := 2; isLoading := true; result := None; error := None |};
              {| step := 3; isLoading := true; result := None; error := None |} ])%list.
Proof.
  intros Hid Hsf. unfold handleVerifyKYC_start. rewrite Hid, Hsf.
  eexists _, _. split; [reflexivity|]. cbn.
  repeat split. unfold installed. by rewrite !omap_app, <- !(assoc_L (++)).
Qed.

(** The [catch] branch. *)
Lemma handleVerifyKYC_resume_caught outcome w msg :
  (∃ e, outcome = inl e ∧ msg = message e)
  ∨ (∃ response, outcome = inr response ∧ ok response = false
       ∧ msg = "HTTP " +:+ pretty (resp_status response) +:+ ": "
                 +:+ statusText response) →
  handleVerifyKYC_resume outcome w
  = setVerification
      {| step := 1; isLoading := false; result := None;
         error := Some ("Verification failed: " +:+ msg) |}
      (setPending (Nat.pred (pendingVerify w)) w).
Proof.
  unfold handleVerifyKYC_resume.
  intros [(e & -> & ->) | (response & -> & Hok & ->)]; cbn; [done|].
  by rewrite Hok.
Qed.

(** C2.  A verify attempt that fails, by a transport error or by a
    non-2xx status, leaves the workflow in step 1, not loading, without
    result, and with an error message that contains the failure (the
    thrown message, resp. the status code: "500" for an HTTP 500).  The
    staged files, their previews and the live object URLs are as before
    the attempt. *)
Theorem verify_failure
    (w : World) (fetch : Request → Try Response) (outcome : Try Response)
    (msg : string) :
  present (idCard (files w)) = true →
  present (selfie (files w)) = true →
  (∀ req, fetch req = outcome) →
  (∃ e, outcome = inl e ∧ msg = message e)
  ∨ (∃ response, outcome = inr response ∧ ok response = false
       ∧ msg = "HTTP " +:+ pretty (resp_status response) +:+ ": "
                 +:+ statusText response) →
  let w' := handleVerifyKYC fetch w in
  verification w'
  = {| step := 1; isLoading := false; result := None;
       error := Some ("Verification failed: " +:+ msg) |}
  ∧ (∀ err, error (verification w') = Some err → contains err msg)
  ∧ (∀ response err,
       outcome = inr response → error (verification w') = Some err →
       contains err (pretty (resp_status response))
       ∧ (resp_status response = 500 → contains err "500"))
  ∧ files w' = files w
  ∧ idCardFile w' = idCardFile w
  ∧ selfieFile w' = selfieFile w
  ∧ objectURLs w' = objectURLs w.
Proof.
  intros Hid Hsf Hfetch Hfail w'.
  destruct (idCard (files w)) as [id|] eqn:Eid; [|done].
  destruct (selfie (files w)) as [sf|] eqn:Esf; [|done].
  destruct (handleVerifyKYC_start_staged w id sf Eid Esf)
    as (w1 & req & Hstart & _ & _ & Hfiles & Hidc & Hsfc & Hurls & _).
  assert (Hw' : w' = setVerification
            {| step := 1; isLoading := false; result := None;
               error := Some ("Verification failed: " +:+ msg) |}
            (setPending (Nat.pred (pendingVerify w1)) w1)).
  { subst w'. unfold handleVerifyKYC. rewrite Hstart, Hfetch.
    by apply handleVerifyKYC_resume_caught. }
  rewrite Hw'. cbn. rewrite Hfiles, Hidc, Hsfc, Hurls.
  split_and!; try done.
  - intros err [= <-]. apply contains_suffix.
  - intros response err Hout [= <-].
    destruct Hfail as [(e & -> & _) | (response' & -> & _ & ->)]; [done|].
    injection Hout as <-.
    assert (Hc : contains
              ("Verification failed: " +:+ "HTTP " +:+ pretty (resp_status response')
                 +:+ ": " +:+ statusText response')
              (pretty (resp_status response'))).
    { by exists "Verification failed: HTTP ", (": " +:+ statusText response'). }
    split; [exact Hc|]. intros H500. rewrite H500 in Hc |- *.
    by replace "500" with (pretty 500) by by vm_compute.
Qed.

Lemma verify_failure_witness :
  let w' := handleVerifyKYC (λ _, inr http500) stagedWorld in
  verification w'
  = {| step := 1; isLoading := false; result := None;
       error := Some "Verification failed: HTTP 500: Internal Server Error" |}
  ∧ contains "Verification failed: HTTP 500: Internal Server Error" "500"
  ∧ files w' = {| idCard := Some idJpeg; selfie := Some selfiePng |}
  ∧ idCardFile w' = Some {| file := idJpeg; preview := 0%nat |}
  ∧ selfieFile w' = Some {| file := selfiePng; preview := 1%nat |}.
Proof.
  pose proof (verify_failure stagedWorld (λ _, inr http500) (inr http500)
                "HTTP 500: Internal Server Error"
                eq_refl eq_refl (λ _, eq_refl)
                (or_intror (ex_intro _ http500 (conj eq_refl (conj eq_refl eq_refl)))))
    as (Hv & _ & H500 & Hf & Hi & Hs & _).
  split_and!.
  - exact Hv.
  - exact (proj2 (H500 http500 _ eq_refl (f_equal error Hv)) eq_refl).
  - exact Hf.
  - exact Hi.
  - exact Hs.
Defined.

(** C5.  With an empty slot, [handleVerifyKYC] only raises the warning:
    step, loading flag, result and error keep their values, nothing else
    of the session changes, and no request is issued. *)
Theorem verify_guard (w : World) (fetch : Request → Try Response) :
  idCard (files w) = None ∨ selfie (files w) = None →
  let w' := handleVerifyKYC fetch w in
  w' = alert "Please upload both ID document and selfie before verification." w
  ∧ handleVerifyKYC_start w = (w', None)
  ∧ step (verification w') = step (verification w)
  ∧ isLoading (verification w') = isLoading (verification w)
  ∧ result (verification w') = result (verification w)
  ∧ error (verification w') = error (verification w)
  ∧ files w' = files w
  ∧ pendingVerify w' = pendingVerify w
  ∧ fetched (trace w') = fetched (trace w)
  ∧ installed (trace w') = installed (trace w)
  ∧ trace w'
    = (trace w
       ++ [Alert "Please upload both ID document and selfie before verification."])%list.
Proof.
  intros Hempty w'.
  assert (Hstart : handleVerifyKYC_start w
            = (alert "Please upload both ID document and selfie before verification." w,
               None)).
  { unfold handleVerifyKYC_start.
    destruct Hempty as [-> | ->]; [done|]. by destruct (idCard (files w)). }
  assert (Hw' : w'
            = alert "Please upload both ID document and selfie before verification." w).
  { subst w'. unfold handleVerifyKYC. by rewrite Hstart. }
  rewrite Hw'. cbn. split_and!; try done; by trace_simpl.
Qed.

Lemma verify_guard_witness :
  handleVerifyKYC (λ _, inr http500) initialWorld
  = alert "Please upload both ID document and selfie before verification." initialWorld.
Proof.
  exact (proj1 (verify_guard initialWorld (λ _, inr http500) (or_introl eq_refl))).
Defined.

(** ** File staging (§4.1) *)

Lemma includes_elem_of ts t : FileUpload.includes ts t = true ↔ t ∈ ts.
Proof.
  unfold FileUpload.includes. rewrite existsb_exists. split.
  - intros (x & Hin & Heq). apply String.eqb_eq in Heq as ->.
    by apply list_elem_of_In.
  - intros Hin. exists t. split; [by apply list_elem_of_In | apply String.eqb_refl].
Qed.

(** C4.  A file larger than 10 MiB, or whose declared type is not on the
    allow-list, is rejected: [validateFile] returns the message of the
    first failed constraint (size before type), and [handleFileSelect]
    only shows it.  Both slots stay as they were, no object URL is
    created and [onFilesSelect] is not called. *)
Theorem handleFileSelect_rejects (f : File) (type : string) (w : World) :
  FileUpload.maxSize < file_size f ∨ file_type f ∉ FileUpload.allowedTypes →
  ∃ validationError,
    FileUpload.validateFile f = Some validationError
    ∧ (FileUpload.maxSize < file_size f →
       validationError = "File size must be less than 10MB")
    ∧ (file_size f ≤ FileUpload.maxSize →
       validationError = "Please upload a valid image file (JPEG, PNG, WebP)")
    ∧ FileUpload.handleFileSelect f type w = alert validationError w
    ∧ (let w' := FileUpload.handleFileSelect f type w in
       idCardFile w' = idCardFile w
       ∧ selfieFile w' = selfieFile w
       ∧ files w' = files w
       ∧ verification w' = verification w
       ∧ objectURLs w' = objectURLs w
       ∧ nextURL w' = nextURL w
       ∧ created (trace w') = created (trace w)
       ∧ notified (trace w') = notified (trace w)
       ∧ trace w' = (trace w ++ [Alert validationError])%list).
Proof.
  intros Hbad.
  assert (Hv : ∃ validationError,
             FileUpload.validateFile f = Some validationError
             ∧ (FileUpload.maxSize < file_size f →
                validationError = "File size must be less than 10MB")
             ∧ (file_size f ≤ FileUpload.maxSize →
                validationError = "Please upload a valid image file (JPEG, PNG, WebP)")).
  { unfold FileUpload.validateFile.
    destruct (Z.ltb_spec FileUpload.maxSize (file_size f)) as [Hlt|Hle].
    - eexists. split_and!; [done | done | lia].
    - destruct Hbad as [Hlt|Hty]; [lia|].
      destruct (FileUpload.includes _ _) eqn:Hinc.
      + by apply includes_elem_of in Hinc.
      + eexists. split_and!; [done | lia | done]. }
  destruct Hv as (validationError & Hval & Hsize & Htype).
  exists validationError.
  assert (Hsel : FileUpload.handleFileSelect f type w = alert validationError w).
  { unfold FileUpload.handleFileSelect. by rewrite Hval. }
  split_and!; try done. rewrite Hsel. cbn.
  split_and!; try done; by trace_simpl.
Qed.

Lemma handleFileSelect_rejects_witness :
  FileUpload.handleFileSelect bigGif "id" stagedWorld
  = alert "File size must be less than 10MB" stagedWorld
  ∧ idCardFile (FileUpload.handleFileSelect bigGif "id" stagedWorld)
    = Some {| file := idJpeg; preview := 0%nat |}.
Proof.
  destruct (handleFileSelect_rejects bigGif "id" stagedWorld (or_introl eq_refl))
    as (msg & _ & Hsize & _ & Hsel & Hid & _).
  split.
  - rewrite Hsel. f_equal. exact (Hsize eq_refl).
  - exact Hid.
Defined.

(** ** The health probe (§4.3) *)

(** C8, as amended.  [checkApiHealth] touches nothing but the health
    record.  The status becomes "healthy", with the payload retained,
    exactly when the response has a 2xx status and its body parses as
    JSON; otherwise it becomes "error", with "HTTP <code>" for a non-2xx
    status and with the thrown message for a network failure or for a
    2xx body that is not JSON. *)
Theorem checkApiHealth_spec (outcome : Try Response) (now : string) (w : World) :
  let w' := checkApiHealth outcome now w in
  verification w' = verification w
  ∧ files w' = files w
  ∧ idCardFile w' = idCardFile w
  ∧ selfieFile w' = selfieFile w
  ∧ objectURLs w' = objectURLs w
  ∧ pendingVerify w' = pendingVerify w
  ∧ installed (trace w') = installed (trace w)
  ∧ (api_status (apiHealth w') = "healthy"
     ↔ ∃ response payload,
         outcome = inr response ∧ ok response = true ∧ json response = inr payload)
  ∧ (api_status (apiHealth w') = "healthy" ∨ api_status (apiHealth w') = "error")
  ∧ (∀ response payload,
       outcome = inr response → ok response = true → json response = inr payload →
       apiHealth w' = {| api_status := "healthy"; lastChecked := Some now;
                         data := Some payload; api_error := None |})
  ∧ (∀ response,
       outcome = inr response → ok response = false →
       apiHealth w' = {| api_status := "error"; lastChecked := Some now;
                         data := None;
                         api_error := Some ("HTTP " +:+ pretty (resp_status response)) |})
  ∧ (∀ e,
       outcome = inl e →
       apiHealth w' = {| api_status := "error"; lastChecked := Some now;
                         data := None; api_error := Some (message e) |})
  ∧ (∀ response e,
       outcome = inr response → ok response = true → json response = inl e →
       apiHealth w' = {| api_status := "error"; lastChecked := Some now;
                         data := None; api_error := Some (message e) |}).
Proof.
  unfold checkApiHealth.
  destruct outcome as [e | response]; cbn;
    [| destruct (ok response) eqn:Hok; cbn;
       [destruct (json response) as [e | payload] eqn:Hjson; cbn |]];
    split_and!; try done; try (by trace_simpl);
    try (by left); try (by right);
    try (by intros; simplify_eq; congruence);
    try (split; [done | by intros (? & ? & ? & ? & ?); simplify_eq; congruence]).
  split; [intros _; do 2 eexists; split_and!; [reflexivity | eassumption..] | done].
Qed.

(** C8, as stated, fails: a 204 answer is a successful HTTP status, yet
    [response.json()] throws on its empty body and the status becomes
    "error". *)
Lemma checkApiHealth_counterexample :
  ok http204 = true
  ∧ apiHealth (checkApiHealth (inr http204) "10:15:00 AM" initialWorld)
    = {| api_status := "error"; lastChecked := Some "10:15:00 AM";
         data := None; api_error := Some "Unexpected end of JSON input" |}.
Proof. split; reflexivity. Qed.

(** ** Preview resources *)

Lemma tidy_swap live a b next rev : tidy live a b next rev → tidy live b a next rev.
Proof.
  intros (Hlive & Hdisj & Hlt & Hnd & Hrev).
  split_and!; [set_solver | set_solver | done | done | done].
Qed.

Lemma tidy_initial : tidy ∅ ∅ ∅ 0%nat [].
Proof.
  split_and!; [set_solver | set_solver | set_solver | constructor |].
  intros u. split; [by intros ?%elem_of_nil | lia].
Qed.

(** Taking a first preview for an empty slot. *)
Lemma tidy_create live b next rev :
  tidy live ∅ b next rev → tidy ({[next]} ∪ live) {[next]} b (S next) rev.
Proof.
  intros (Hlive & Hdisj & Hlt & Hnd & Hrev).
  assert (next ∉ live) by (intros ?%Hlt; lia).
  split_and!.
  - set_solver.
  - set_solver.
  - intros u [->%elem_of_singleton | ?%Hlt]%elem_of_union; lia.
  - done.
  - intros u. rewrite Hrev. rewrite not_elem_of_union, not_elem_of_singleton.
    split; [intros [? ?]; split_and!; [lia | lia | done]|].
    intros (? & ? & ?). split; [lia | done].
Qed.

(** Releasing the preview of an occupied slot. *)
Lemma tidy_revoke live p b next rev :
  tidy live {[p]} b next rev → tidy (live ∖ {[p]}) ∅ b next (rev ++ [p]).
Proof.
  intros (Hlive & Hdisj & Hlt & Hnd & Hrev).
  assert (p ∈ live) by set_solver.
  split_and!.
  - set_solver.
  - set_solver.
  - intros u [? _]%elem_of_difference. by apply Hlt.
  - apply NoDup_app. split_and!; [done | | apply NoDup_singleton].
    intros u [_ Hu]%Hrev ->%list_elem_of_singleton. done.
  - intros u. rewrite elem_of_app, list_elem_of_singleton, Hrev.
    rewrite elem_of_difference, elem_of_singleton.
    split.
    + intros [[? ?] | ->]; [split; [done | tauto] | split; [by apply Hlt | tauto]].
    + intros [? Hu]. destruct (decide (u = p)) as [->|]; [by right | left].
      split; [done|]. intros ?. apply Hu. done.
Qed.

(** [onFilesSelect] touches neither the cells of [FileUpload] nor the
    object URLs. *)
Lemma onFilesSelect_frame fs w :
  idCardFile (onFilesSelect fs w) = idCardFile w
  ∧ selfieFile (onFilesSelect fs w) = selfieFile w
  ∧ objectURLs (onFilesSelect fs w) = objectURLs w
  ∧ nextURL (onFilesSelect fs w) = nextURL w
  ∧ pendingVerify (onFilesSelect fs w) = pendingVerify w
  ∧ revoked (trace (onFilesSelect fs w)) = revoked (trace w)
  ∧ created (trace (onFilesSelect fs w)) = created (trace w)
  ∧ files (onFilesSelect fs w) = fs.
Proof.
  unfold onFilesSelect, handleFilesSelect. cbn.
  destruct (result (verification w)); cbn; split_and!; try done; by trace_simpl.
Qed.

Lemma previews_ok_onFilesSelect fs w :
  previews_ok (onFilesSelect fs w) ↔ previews_ok w.
Proof.
  unfold previews_ok.
  destruct (onFilesSelect_frame fs w) as (-> & -> & -> & -> & _ & -> & _). done.
Qed.

Ltac staging cell :=
  unfold previews_ok at 1; cbn;
  destruct cell as [old|] eqn:Hold; intros H;
  rewrite previews_ok_onFilesSelect; unfold previews_ok; cbn; rewrite ?Hold;
  unfold revoked in *; rewrite ?omap_app; cbn; rewrite ?(right_id_L [] (++)).

Lemma previews_ok_stage w op : previews_ok w → previews_ok (stage w op).
Proof.
  destruct op as [f type | type | [|f fs] | [|f fs] | type]; cbn; try done.
  - unfold FileUpload.handleFileSelect.
    destruct (FileUpload.validateFile f).
    { unfold previews_ok. cbn. unfold revoked. rewrite omap_app. cbn.
      by rewrite (right_id_L [] (++)). }
    destruct (String.eqb type "id").
    + staging (idCardFile w).
      * by apply tidy_create, tidy_revoke.
      * by apply tidy_create.
    + staging (selfieFile w).
      * by apply tidy_swap, tidy_create, tidy_revoke, tidy_swap.
      * by apply tidy_swap, tidy_create, tidy_swap.
  - unfold FileUpload.handleFileRemove.
    destruct (String.eqb type "id").
    + staging (idCardFile w); [by apply tidy_revoke | done].
    + staging (selfieFile w); [by apply tidy_swap, tidy_revoke, tidy_swap | done].
  - staging (idCardFile w).
    + by apply tidy_create, tidy_revoke.
    + by apply tidy_create.
  - staging (selfieFile w).
    + by apply tidy_swap, tidy_create, tidy_revoke, tidy_swap.
    + by apply tidy_swap, tidy_create, tidy_swap.
  - unfold FileUploadDropzone.removeFile.
    destruct (String.eqb type "id").
    + staging (idCardFile w); [by apply tidy_revoke | done].
    + staging (selfieFile w); [by apply tidy_swap, tidy_revoke, tidy_swap | done].
Qed.

Lemma previews_ok_initial : previews_ok initialWorld.
Proof. apply tidy_initial. Qed.

(** Along every sequence of select and remove operations, on either
    slot and in either variant of the component, at most one preview is
    live per slot and every replaced or removed preview has been released
    exactly once. *)
Lemma previews_ok_staging (ops : list StagingOp) :
  previews_ok (foldl stage initialWorld ops).
Proof.
  induction ops as [|op ops IH] using rev_ind.
  - apply previews_ok_initial.
  - rewrite foldl_app. cbn. by apply previews_ok_stage.
Qed.

(** C7, the teardown clause, on the code.  The dropzone variant is
    mounted, a file is dropped on the ID slot, and the component is
    unmounted.  The cleanup that runs is the one registered after the
    first render; it closed over the empty cells of that render, so it
    revokes nothing: the preview created for the file is still live after
    the teardown, and no cell refers to it any more. *)
Theorem unmount_leaks_preview (f : File) :
  let w0 := fst (FileUploadDropzone.mount initialWorld) in
  let registered := snd (FileUploadDropzone.mount initialWorld) in
  let w1 := FileUploadDropzone.onDropIdCard [f] w0 in
  let w2 := FileUploadDropzone.unmount registered w1 in
  idCardFile w1 = Some {| file := f; preview := 0%nat |}
  ∧ 0%nat ∈ objectURLs w1
  ∧ 0%nat ∈ objectURLs w2
  ∧ revoked (trace w2) = []
  ∧ idCardFile w2 = None
  ∧ selfieFile w2 = None.
Proof.
  cbn. split_and!; try done; set_solver.
Qed.

(** The component that [KYCApp] renders registers no cleanup at all:
    when a result arrives and the component is unmounted, the previews of
    both staged files stay live. *)
Lemma result_view_leaks_previews :
  ∃ w,
    run [SelectFile idJpeg "id"; SelectFile selfiePng "selfie"; ClickVerify;
         VerifySettled (inr (mkResponse 200 "OK" (inr (JObj janeDoe))))]
        initialWorld = Some w
    ∧ idCardFile w = None
    ∧ selfieFile w = None
    ∧ revoked (trace w) = []
    ∧ 0%nat ∈ objectURLs w
    ∧ 1%nat ∈ objectURLs w.
Proof.
  eexists. split; [by vm_compute|].
  split_and!; try done; by vm_compute.
Qed.

(** ** Reachable sessions *)

Lemma run_reachable es w w' : reachable w → run es w = Some w' → reachable w'.
Proof.
  revert w. induction es as [|e es IH]; intros w Hw; cbn.
  - by intros [= <-].
  - destruct (enabled e w) eqn:He; [|done].
    apply IH. by apply reachable_dispatch.
Qed.

Lemma phase_ok_idle : phase_ok idle.
Proof. split_and!; [by left | split; [done | by intros [?|?]] | by left]. Qed.

Lemma phase_ok_uploading :
  phase_ok {| step := 2; isLoading := true; result := None; error := None |}.
Proof. split_and!; [by right; left | split; [by left | done] | by left]. Qed.

Lemma phase_ok_analyzing :
  phase_ok {| step := 3; isLoading := true; result := None; error := None |}.
Proof. split_and!; [by right; right; left | split; [by right | done] | by left]. Qed.

Lemma phase_ok_complete r :
  phase_ok {| step := 4; isLoading := false; result := Some r; error := None |}.
Proof.
  split_and!; [by right; right; right | split; [done | by intros [?|?]] | by right].
Qed.

Lemma phase_ok_failed msg :
  phase_ok {| step := 1; isLoading := false; result := None; error := Some msg |}.
Proof. split_and!; [by left | split; [done | by intros [?|?]] | by left]. Qed.

(** [session_ok] only looks at the workflow state, the states installed
    so far and the number of pending requests. *)
Lemma session_ok_ext w w' :
  verification w' = verification w →
  pendingVerify w' = pendingVerify w →
  installed (trace w') = installed (trace w) →
  session_ok w → session_ok w'.
Proof. unfold session_ok. by intros -> -> ->. Qed.

(** Installing a phase [v], with [n] requests pending afterwards. *)
Lemma session_ok_install w w' v n vs :
  verification w' = v →
  pendingVerify w' = n →
  installed (trace w') = (installed (trace w) ++ vs ++ [v])%list →
  Forall phase_ok vs →
  phase_ok v →
  (isLoading v = true → n = 1%nat ∧ result v = None) →
  (isLoading v = false → n = 0%nat) →
  session_ok w → session_ok w'.
Proof.
  unfold session_ok. intros -> -> -> Hvs Hv Hl Hn (_ & Hall & _).
  split_and!; try done.
  rewrite !Forall_app. split_and!; [done | done | by constructor].
Qed.

Lemma render_frame w :
  verification (render w) = verification w
  ∧ pendingVerify (render w) = pendingVerify w
  ∧ trace (render w) = trace w
  ∧ files (render w) = files w.
Proof. unfold render. by destruct (result (verification w)). Qed.

Lemma onFilesSelect_workflow fs w :
  result (verification w) = None →
  verification (onFilesSelect fs w) = verification w
  ∧ pendingVerify (onFilesSelect fs w) = pendingVerify w
  ∧ installed (trace (onFilesSelect fs w)) = installed (trace w).
Proof.
  intros Hres. unfold onFilesSelect, handleFilesSelect. cbn. rewrite Hres.
  split_and!; try done. by trace_simpl.
Qed.

Ltac workflow_frame :=
  cbn;
  match goal with
  | |- context [onFilesSelect ?fs ?w] =>
      let H := fresh in
      pose proof (onFilesSelect_workflow fs w) as H; cbn in H;
      destruct H as (-> & -> & ->); [done|]
  end;
  cbn; split_and!; try done; by trace_simpl.

(** While no result is shown, staging files leaves the workflow alone. *)
Lemma handleFileSelect_workflow f type w :
  result (verification w) = None →
  verification (FileUpload.handleFileSelect f type w) = verification w
  ∧ pendingVerify (FileUpload.handleFileSelect f type w) = pendingVerify w
  ∧ installed (trace (FileUpload.handleFileSelect f type w)) = installed (trace w).
Proof.
  intros Hres. unfold FileUpload.handleFileSelect.
  destruct (FileUpload.validateFile f).
  { cbn. split_and!; try done. by trace_simpl. }
  destruct (String.eqb type "id");
    [destruct (idCardFile w) | destruct (selfieFile w)]; workflow_frame.
Qed.

Lemma handleFileRemove_workflow type w :
  result (verification w) = None →
  verification (FileUpload.handleFileRemove type w) = verification w
  ∧ pendingVerify (FileUpload.handleFileRemove type w) = pendingVerify w
  ∧ installed (trace (FileUpload.handleFileRemove type w)) = installed (trace w).
Proof.
  intros Hres. unfold FileUpload.handleFileRemove.
  destruct (String.eqb type "id");
    [destruct (idCardFile w) | destruct (selfieFile w)]; workflow_frame.
Qed.

(** The health probe leaves everything but the health record alone. *)
Lemma checkApiHealth_frame outcome now w :
  let w' := checkApiHealth outcome now w in
  verification w' = verification w
  ∧ files w' = files w
  ∧ idCardFile w' = idCardFile w
  ∧ selfieFile w' = selfieFile w
  ∧ objectURLs w' = objectURLs w
  ∧ pendingVerify w' = pendingVerify w
  ∧ installed (trace w') = installed (trace w).
Proof.
  unfold checkApiHealth.
  destruct outcome as [e | response]; cbn;
    [| destruct (ok response); cbn; [destruct (json response); cbn |]];
    split_and!; try done; by trace_simpl.
Qed.

(** However the request settles, the rest of [handleVerifyKYC] installs
    either the completed or the failed phase. *)
Lemma handleVerifyKYC_resume_installs outcome w :
  ∃ v,
    ((∃ r, v = {| step := 4; isLoading := false; result := Some r; error := None |})
     ∨ (∃ msg, v = {| step := 1; isLoading := false; result := None;
                      error := Some msg |}))
    ∧ handleVerifyKYC_resume outcome w
      = setVerification v (setPending (Nat.pred (pendingVerify w)) w).
Proof.
  unfold handleVerifyKYC_resume.
  destruct outcome as [e | response]; cbn; [by eauto 6|].
  destruct (ok response); cbn; [|by eauto 6].
  destruct (json response) as [e | apiResult]; cbn; [by eauto 6|].
  destruct (transformedResult apiResult) as [e | r]; cbn; by eauto 6.
Qed.

(** ** Every state update installs a phase *)

Lemma installs_phases_none w w' :
  verification w' = verification w →
  installed (trace w') = installed (trace w) →
  installs_phases w w'.
Proof.
  intros Hv Ht. exists []. rewrite (right_id_L [] (++)). by split_and!.
Qed.

Lemma installs_phases_from w0 w w' :
  verification w0 = verification w →
  installed (trace w0) = installed (trace w) →
  installs_phases w0 w' → installs_phases w w'.
Proof. unfold installs_phases. by intros -> ->. Qed.

Lemma installs_phases_keeps w w' :
  installs_phases w w' →
  phase_ok (verification w) ∧ Forall phase_ok (installed (trace w)) →
  phase_ok (verification w') ∧ Forall phase_ok (installed (trace w')).
Proof.
  intros (new & -> & Hnew & ->) [Hv Hall]. split.
  - destruct (last new) as [v|] eqn:Hlast; [|done]. cbn.
    apply last_Some_elem_of in Hlast. by eapply Forall_forall in Hnew.
  - by apply Forall_app.
Qed.

Lemma handleFilesSelect_installs fs w : installs_phases w (handleFilesSelect fs w).
Proof.
  unfold handleFilesSelect. destruct (result (verification w)).
  - exists [idle]. split_and!; [by trace_simpl | | done].
    constructor; [apply phase_ok_idle | constructor].
  - by apply installs_phases_none.
Qed.

Lemma onFilesSelect_installs fs w : installs_phases w (onFilesSelect fs w).
Proof.
  unfold onFilesSelect.
  eapply installs_phases_from; [| | apply handleFilesSelect_installs].
  - done.
  - by trace_simpl.
Qed.

Ltac installs_via_onFilesSelect :=
  cbn; eapply installs_phases_from; [| | apply onFilesSelect_installs];
  [done | by trace_simpl].

Lemma handleFileSelect_installs f type w :
  installs_phases w (FileUpload.handleFileSelect f type w).
Proof.
  unfold FileUpload.handleFileSelect.
  destruct (FileUpload.validateFile f).
  { apply installs_phases_none; [done | by trace_simpl]. }
  destruct (String.eqb type "id");
    [destruct (idCardFile w) | destruct (selfieFile w)];
    installs_via_onFilesSelect.
Qed.

Lemma handleFileRemove_installs type w :
  installs_phases w (FileUpload.handleFileRemove type w).
Proof.
  unfold FileUpload.handleFileRemove.
  destruct (String.eqb type "id");
    [destruct (idCardFile w) | destruct (selfieFile w)];
    installs_via_onFilesSelect.
Qed.

Lemma handleVerifyKYC_start_installs w :
  installs_phases w (fst (handleVerifyKYC_start w)).
Proof.
  unfold handleVerifyKYC_start.
  destruct (idCard (files w)), (selfie (files w)); cbn;
    try (apply installs_phases_none; [done | by trace_simpl]).
  exists [ {| step := 2; isLoading := true; result := None; error := None |};
           {| step := 3; isLoading := true; result := None; error := None |} ].
  split_and!; [trace_simpl; by rewrite <- (assoc_L (++)) | | done].
  constructor; [apply phase_ok_uploading|].
  constructor; [apply phase_ok_analyzing | constructor].
Qed.

Lemma handleVerifyKYC_resume_installs_phase outcome w :
  installs_phases w (handleVerifyKYC_resume outcome w).
Proof.
  destruct (handleVerifyKYC_resume_installs outcome w) as (v & Hv & ->).
  exists [v]. split_and!; [by trace_simpl | | done].
  constructor; [|constructor].
  destruct Hv as [[r ->] | [msg ->]];
    [apply phase_ok_complete | apply phase_ok_failed].
Qed.

Lemma handleStartOver_installs w : installs_phases w (handleStartOver w).
Proof.
  exists [idle]. split_and!; [by trace_simpl | | done].
  constructor; [apply phase_ok_idle | constructor].
Qed.

(** Whatever the handler and whatever the state it is started in, all
    the workflow states it installs are phases. *)
Lemma handle_installs e w : installs_phases w (handle e w).
Proof.
  destruct e as [f type | type | | outcome | | outcome now]; cbn.
  - apply handleFileSelect_installs.
  - apply handleFileRemove_installs.
  - apply handleVerifyKYC_start_installs.
  - apply handleVerifyKYC_resume_installs_phase.
  - apply handleStartOver_installs.
  - destruct (checkApiHealth_frame outcome now w) as (? & _ & _ & _ & _ & _ & ?).
    by apply installs_phases_none.
Qed.

Lemma session_ok_initial : session_ok initialWorld.
Proof.
  split_and!; [apply phase_ok_idle | constructor | done | done].
Qed.

Lemma canProceed_true w :
  canProceed w = true
  ↔ present (idCard (files w)) = true
    ∧ present (selfie (files w)) = true
    ∧ isLoading (verification w) = false.
Proof.
  unfold canProceed.
  destruct (idCard (files w)), (selfie (files w)), (isLoading (verification w));
    cbn; naive_solver.
Qed.

Lemma session_ok_dispatch e w :
  session_ok w → enabled e w = true → session_ok (dispatch e w).
Proof.
  intros Hok He. unfold dispatch.
  destruct (render_frame (handle e w)) as (Hv & Hp & Ht & _).
  apply (session_ok_ext (handle e w)); [done | done | by rewrite Ht |].
  clear Hv Hp Ht.
  destruct e as [f type | type | | outcome | | outcome now]; cbn in *.
  - (* a file is selected: no result is shown *)
    destruct (result (verification w)) eqn:Hres; [done|].
    destruct (handleFileSelect_workflow f type w Hres) as (? & ? & ?).
    by apply (session_ok_ext w).
  - (* a file is removed: no result is shown *)
    destruct (result (verification w)) eqn:Hres; [done|].
    destruct (handleFileRemove_workflow type w Hres) as (? & ? & ?).
    by apply (session_ok_ext w).
  - (* verification starts: both files are staged, nothing is pending *)
    apply andb_true_iff in He as [_ (Hid & Hsf & Hidle)%canProceed_true].
    destruct (idCard (files w)) as [id|] eqn:Eid; [|done].
    destruct (selfie (files w)) as [sf|] eqn:Esf; [|done].
    destruct (handleVerifyKYC_start_staged w id sf Eid Esf)
      as (w1 & req & -> & _ & Hv & _ & _ & _ & _ & Hp & Ht).
    cbn. pose proof Hok as (Hphase & Hall & Hbusy & Hquiet).
    eapply (session_ok_install w w1 _ _
              [ {| step := 2; isLoading := true; result := None; error := None |} ]);
      [exact Hv | exact Hp | exact Ht | | | | | done].
    + constructor; [apply phase_ok_uploading | constructor].
    + apply phase_ok_analyzing.
    + intros _. by rewrite (Hquiet Hidle).
    + done.
  - (* the request settles: it was the one pending *)
    pose proof Hok as (Hphase & Hall & Hbusy & Hquiet).
    destruct (isLoading (verification w)) eqn:Hl;
      [| rewrite (Hquiet eq_refl) in He; done].
    destruct (Hbusy eq_refl) as [Hone _].
    destruct (handleVerifyKYC_resume_installs outcome w) as (v & Hv & ->).
    eapply (session_ok_install w _ v 0%nat []).
    + done.
    + cbn. by rewrite Hone.
    + by trace_simpl.
    + constructor.
    + destruct Hv as [[r ->] | [msg ->]];
        [apply phase_ok_complete | apply phase_ok_failed].
    + by destruct Hv as [[r ->] | [msg ->]].
    + done.
    + done.
  - (* start over: a result is shown, so nothing is pending *)
    pose proof Hok as (Hphase & Hall & Hbusy & Hquiet).
    destruct (isLoading (verification w)) eqn:Hl.
    { destruct (Hbusy eq_refl) as [_ Hnone]. by rewrite Hnone in He. }
    eapply (session_ok_install w _ idle 0%nat []).
    + done.
    + cbn. by apply Hquiet.
    + by trace_simpl.
    + constructor.
    + apply phase_ok_idle.
    + done.
    + done.
    + done.
  - (* the health probe *)
    destruct (checkApiHealth_frame outcome now w) as (? & _ & _ & _ & _ & ? & ?).
    by apply (session_ok_ext w).
Qed.

Lemma reachable_session_ok w : reachable w → session_ok w.
Proof.
  induction 1 as [|e w Hw IH He].
  - apply session_ok_initial.
  - by apply session_ok_dispatch.
Qed.

(** C9.  In every reachable state the loading flag is set exactly in
    steps 2 and 3: the workflow state pairs step and flag as (1, false),
    (2, true), (3, true) or (4, false) and has result or error absent,
    and so does every state installed on the way there.  This is because
    every state update does: whichever handler runs next (selecting or
    removing a file, starting the verification, its continuation on
    either outcome, starting over), offered by the page or not, each
    state it installs is of that kind. *)
Theorem reachable_phase_ok (w : World) :
  reachable w →
  phase_ok (verification w)
  ∧ (isLoading (verification w) = true
     ↔ step (verification w) = 2 ∨ step (verification w) = 3)
  ∧ Forall phase_ok (installed (trace w))
  ∧ (∀ e, installs_phases w (handle e w)
          ∧ phase_ok (verification (handle e w))
          ∧ Forall phase_ok (installed (trace (handle e w))))
  ∧ (∀ fs, installs_phases w (handleFilesSelect fs w)
           ∧ phase_ok (verification (handleFilesSelect fs w))
           ∧ Forall phase_ok (installed (trace (handleFilesSelect fs w)))).
Proof.
  intros (Hphase & Hall & _)%reachable_session_ok.
  split_and!; [done | apply Hphase | done | |].
  - intros e. split; [apply handle_installs|].
    by apply (installs_phases_keeps w); [apply handle_installs|].
  - intros fs. split; [apply handleFilesSelect_installs|].
    by apply (installs_phases_keeps w); [apply handleFilesSelect_installs|].
Qed.

Lemma reachable_phase_ok_witness :
  let w := dispatch (VerifySettled (inr http500)) (dispatch ClickVerify stagedWorld) in
  phase_ok (verification w)
  ∧ Forall phase_ok (installed (trace w))
  ∧ length (installed (trace w)) = 3%nat.
Proof.
  intros w.
  destruct (reachable_phase_ok w) as (Hphase & _ & Hall & _).
  - apply (run_reachable
             [SelectFile idJpeg "id"; SelectFile selfiePng "selfie"; ClickVerify;
              VerifySettled (inr http500)]
             initialWorld); [apply reachable_init | by vm_compute].
  - split_and!; [exact Hphase | exact Hall | by vm_compute].
Defined.

(** * Further properties of the code *)

(** ** File staging: acceptance, removal, and the two variants *)

(** X1.  [validateFile] accepts a file exactly when its size is at most
    10 MiB (a file of exactly 10 MiB passes) and its declared type is on
    the allow-list; otherwise it returns one of its two messages. *)
Theorem validateFile_accepts_iff (f : File) :
  (FileUpload.validateFile f = None
   ↔ file_size f ≤ FileUpload.maxSize ∧ file_type f ∈ FileUpload.allowedTypes)
  ∧ (FileUpload.validateFile f = None
     ∨ FileUpload.validateFile f = Some "File size must be less than 10MB"
     ∨ FileUpload.validateFile f
       = Some "Please upload a valid image file (JPEG, PNG, WebP)").
Proof.
  unfold FileUpload.validateFile.
  destruct (Z.ltb_spec FileUpload.maxSize (file_size f)) as [Hlt|Hle].
  - split; [|by right; left]. split; [done | intros [? _]; lia].
  - destruct (FileUpload.includes _ _) eqn:Hinc; cbn.
    + apply includes_elem_of in Hinc. split; [|by left]. by split.
    + split; [|by right; right]. split; [done|].
      intros [_ Hin%includes_elem_of]. congruence.
Qed.

Lemma onFilesSelect_notified fs w :
  notified (trace (onFilesSelect fs w)) = (notified (trace w) ++ [fs])%list.
Proof.
  unfold onFilesSelect, handleFilesSelect. cbn.
  destruct (result (verification w)); by trace_simpl.
Qed.

Ltac accept_slot :=
  cbn;
  match goal with
  | |- context [onFilesSelect ?fs ?w0] =>
      destruct (onFilesSelect_frame fs w0) as (-> & -> & -> & -> & _ & -> & -> & ->);
      rewrite (onFilesSelect_notified fs w0)
  end;
  cbn; split_and!; try done; by trace_simpl.

(** The "id" slot, for composing steps. *)
Lemma handleFileSelect_accepts_id f w :
  FileUpload.validateFile f = None →
  let w' := FileUpload.handleFileSelect f "id" w in
  idCardFile w' = Some {| file := f; preview := nextURL w |}
  ∧ selfieFile w' = selfieFile w
  ∧ objectURLs w' = {[nextURL w]} ∪ objectURLs w ∖ previewOf (idCardFile w)
  ∧ nextURL w' = S (nextURL w)
  ∧ revoked (trace w')
    = (revoked (trace w) ++ elements (previewOf (idCardFile w)))%list
  ∧ created (trace w') = (created (trace w) ++ [nextURL w])%list
  ∧ notified (trace w')
    = (notified (trace w)
       ++ [ {| idCard := Some f; selfie := file <$> selfieFile w |} ])%list
  ∧ files w' = {| idCard := Some f; selfie := file <$> selfieFile w |}.
Proof.
  intros Hval. unfold FileUpload.handleFileSelect. rewrite Hval. cbn.
  destruct (idCardFile w) as [old|]; cbn;
    rewrite ?elements_singleton, ?elements_empty, ?difference_empty_L;
    accept_slot.
Qed.

Lemma handleFileRemove_id w :
  let w' := FileUpload.handleFileRemove "id" w in
  idCardFile w' = None
  ∧ selfieFile w' = selfieFile w
  ∧ objectURLs w' = objectURLs w ∖ previewOf (idCardFile w)
  ∧ nextURL w' = nextURL w
  ∧ revoked (trace w')
    = (revoked (trace w) ++ elements (previewOf (idCardFile w)))%list
  ∧ created (trace w') = created (trace w)
  ∧ notified (trace w')
    = (notified (trace w)
       ++ [ {| idCard := None; selfie := file <$> selfieFile w |} ])%list
  ∧ files w' = {| idCard := None; selfie := file <$> selfieFile w |}.
Proof.
  unfold FileUpload.handleFileRemove. cbn.
  destruct (idCardFile w) as [old|]; cbn;
    rewrite ?elements_singleton, ?elements_empty, ?difference_empty_L;
    accept_slot.
Qed.

Lemma handleFileSelect_accepts_other f type w :
  FileUpload.validateFile f = None →
  type ≠ "id" →
  let w' := FileUpload.handleFileSelect f type w in
  selfieFile w' = Some {| file := f; preview := nextURL w |}
  ∧ idCardFile w' = idCardFile w
  ∧ objectURLs w' = {[nextURL w]} ∪ objectURLs w ∖ previewOf (selfieFile w)
  ∧ nextURL w' = S (nextURL w)
  ∧ revoked (trace w')
    = (revoked (trace w) ++ elements (previewOf (selfieFile w)))%list
  ∧ created (trace w') = (created (trace w) ++ [nextURL w])%list
  ∧ notified (trace w')
    = (notified (trace w)
       ++ [ {| idCard := file <$> idCardFile w; selfie := Some f |} ])%list
  ∧ files w' = {| idCard := file <$> idCardFile w; selfie := Some f |}.
Proof.
  intros Hval Htype. apply String.eqb_neq in Htype.
  unfold FileUpload.handleFileSelect. rewrite Hval, Htype.
  destruct (selfieFile w) as [old|]; cbn;
    rewrite ?elements_singleton, ?elements_empty, ?difference_empty_L;
    accept_slot.
Qed.

Lemma handleFileRemove_other type w :
  type ≠ "id" →
  let w' := FileUpload.handleFileRemove type w in
  selfieFile w' = None
  ∧ idCardFile w' = idCardFile w
  ∧ objectURLs w' = objectURLs w ∖ previewOf (selfieFile w)
  ∧ nextURL w' = nextURL w
  ∧ revoked (trace w')
    = (revoked (trace w) ++ elements (previewOf (selfieFile w)))%list
  ∧ created (trace w') = created (trace w)
  ∧ notified (trace w')
    = (notified (trace w)
       ++ [ {| idCard := file <$> idCardFile w; selfie := None |} ])%list
  ∧ files w' = {| idCard := file <$> idCardFile w; selfie := None |}.
Proof.
  intros Htype. apply String.eqb_neq in Htype.
  unfold FileUpload.handleFileRemove. rewrite Htype.
  destruct (selfieFile w) as [old|]; cbn;
    rewrite ?elements_singleton, ?elements_empty, ?difference_empty_L;
    accept_slot.
Qed.

(** X2.  Selecting a file that passes validation stages it in its slot
    (slot "id", or the selfie slot for any other type) with a preview
    that was never handed out before, releases the preview the slot held,
    leaves the other slot alone, and notifies [KYCApp] exactly once, with
    the snapshot of both slots. *)
Theorem handleFileSelect_accepts (f : File) (w : World) :
  FileUpload.validateFile f = None →
  (let w' := FileUpload.handleFileSelect f "id" w in
   idCardFile w' = Some {| file := f; preview := nextURL w |}
   ∧ selfieFile w' = selfieFile w
   ∧ objectURLs w' = {[nextURL w]} ∪ objectURLs w ∖ previewOf (idCardFile w)
   ∧ nextURL w' = S (nextURL w)
   ∧ revoked (trace w')
     = (revoked (trace w) ++ elements (previewOf (idCardFile w)))%list
   ∧ created (trace w') = (created (trace w) ++ [nextURL w])%list
   ∧ notified (trace w')
     = (notified (trace w)
        ++ [ {| idCard := Some f; selfie := file <$> selfieFile w |} ])%list
   ∧ files w' = {| idCard := Some f; selfie := file <$> selfieFile w |})
  ∧ (∀ type, type ≠ "id" →
     let w' := FileUpload.handleFileSelect f type w in
     selfieFile w' = Some {| file := f; preview := nextURL w |}
     ∧ idCardFile w' = idCardFile w
     ∧ objectURLs w' = {[nextURL w]} ∪ objectURLs w ∖ previewOf (selfieFile w)
     ∧ nextURL w' = S (nextURL w)
     ∧ revoked (trace w')
       = (revoked (trace w) ++ elements (previewOf (selfieFile w)))%list
     ∧ created (trace w') = (created (trace w) ++ [nextURL w])%list
     ∧ notified (trace w')
       = (notified (trace w)
          ++ [ {| idCard := file <$> idCardFile w; selfie := Some f |} ])%list
     ∧ files w' = {| idCard := file <$> idCardFile w; selfie := Some f |}).
Proof.
  intros Hval. split.
  - by apply handleFileSelect_accepts_id.
  - intros type Htype. by apply handleFileSelect_accepts_other.
Qed.

Lemma handleFileSelect_accepts_witness :
  idCardFile (FileUpload.handleFileSelect idJpeg "id" initialWorld)
  = Some {| file := idJpeg; preview := 0%nat |}
  ∧ files (FileUpload.handleFileSelect idJpeg "id" initialWorld)
    = {| idCard := Some idJpeg; selfie := None |}.
Proof.
  destruct (handleFileSelect_accepts idJpeg initialWorld eq_refl)
    as [(Hcell & _ & _ & _ & _ & _ & _ & Hfiles) _].
  split; [exact Hcell | exact Hfiles].
Defined.

(** X3.  Removing a file clears its slot (slot "id", or the selfie slot
    for any other type), releases the preview the slot held (nothing, if
    it was empty), creates none, leaves the other slot alone, and notifies
    [KYCApp] exactly once, also when the slot was empty already. *)
Theorem handleFileRemove_spec (w : World) :
  (let w' := FileUpload.handleFileRemove "id" w in
   idCardFile w' = None
   ∧ selfieFile w' = selfieFile w
   ∧ objectURLs w' = objectURLs w ∖ previewOf (idCardFile w)
   ∧ nextURL w' = nextURL w
   ∧ revoked (trace w')
     = (revoked (trace w) ++ elements (previewOf (idCardFile w)))%list
   ∧ created (trace w') = created (trace w)
   ∧ notified (trace w')
     = (notified (trace w)
        ++ [ {| idCard := None; selfie := file <$> selfieFile w |} ])%list
   ∧ files w' = {| idCard := None; selfie := file <$> selfieFile w |})
  ∧ (∀ type, type ≠ "id" →
     let w' := FileUpload.handleFileRemove type w in
     selfieFile w' = None
     ∧ idCardFile w' = idCardFile w
     ∧ objectURLs w' = objectURLs w ∖ previewOf (selfieFile w)
     ∧ nextURL w' = nextURL w
     ∧ revoked (trace w')
       = (revoked (trace w) ++ elements (previewOf (selfieFile w)))%list
     ∧ created (trace w') = created (trace w)
     ∧ notified (trace w')
       = (notified (trace w)
          ++ [ {| idCard := file <$> idCardFile w; selfie := None |} ])%list
     ∧ files w' = {| idCard := file <$> idCardFile w; selfie := None |}).
Proof.
  split.
  - apply handleFileRemove_id.
  - intros type Htype. by apply handleFileRemove_other.
Qed.

(** X4.  The two variants of the component stage alike: on a file that
    passes validation, selecting it is dropping it (alone or first among
    the accepted files) on the corresponding zone; removing is the same
    in both; and a drop that accepted no file changes nothing. *)
Theorem variants_agree (f : File) (others : list File) (w : World) :
  FileUpload.validateFile f = None →
  FileUpload.handleFileSelect f "id" w
  = FileUploadDropzone.onDropIdCard (f :: others) w
  ∧ FileUpload.handleFileSelect f "selfie" w
    = FileUploadDropzone.onDropSelfie (f :: others) w
  ∧ (∀ type, FileUpload.handleFileRemove type w = FileUploadDropzone.removeFile type w)
  ∧ FileUploadDropzone.onDropIdCard [] w = w
  ∧ FileUploadDropzone.onDropSelfie [] w = w.
Proof.
  intros Hval. unfold FileUpload.handleFileSelect. rewrite Hval.
  by split_and!.
Qed.

Lemma variants_agree_witness :
  FileUpload.handleFileSelect idJpeg "id" initialWorld
  = FileUploadDropzone.onDropIdCard [idJpeg; selfiePng] initialWorld.
Proof.
  exact (proj1 (variants_agree idJpeg [selfiePng] initialWorld eq_refl)).
Defined.

(** X5.  Staging a file and then removing it again leaves the slot
    empty and the other slot as it was; in a session whose previews are
    in order, the only preview still live afterwards is the other slot's,
    the preview created in between has been released, and the previews
    are in order again. *)
Theorem select_then_remove (f : File) (w : World) :
  FileUpload.validateFile f = None →
  previews_ok w →
  let w' := FileUpload.handleFileRemove "id" (FileUpload.handleFileSelect f "id" w) in
  idCardFile w' = None
  ∧ selfieFile w' = selfieFile w
  ∧ files w' = {| idCard := None; selfie := file <$> selfieFile w |}
  ∧ objectURLs w' = previewOf (selfieFile w)
  ∧ nextURL w ∈ revoked (trace w')
  ∧ (nextURL w ∉ objectURLs w')
  ∧ previews_ok w'.
Proof.
  intros Hval Hok w'.
  set (w1 := FileUpload.handleFileSelect f "id" w) in *.
  destruct (handleFileSelect_accepts_id f w Hval)
    as (Hcell & Hsf & Hurls & Hnext & Hrev & _ & _ & _).
  destruct (handleFileRemove_id w1)
    as (Hcell' & Hsf' & Hurls' & _ & Hrev' & _ & _ & Hfiles').
  fold w1 in Hcell, Hsf, Hurls, Hnext, Hrev.
  fold w' in Hcell', Hsf', Hurls', Hrev', Hfiles'.
  assert (Hp : previewOf (idCardFile w1) = {[nextURL w]}) by (by rewrite Hcell).
  rewrite Hp in Hurls', Hrev'. rewrite elements_singleton in Hrev'.
  assert (Hok' : previews_ok w').
  { apply (previews_ok_stage _ (Remove "id")), (previews_ok_stage _ (Select f "id")), Hok. }
  destruct Hok as (Hlive & Hdisj & Hlt & _).
  assert (Hfresh : nextURL w ∉ objectURLs w) by (intros ?%Hlt; lia).
  assert (Hlive' : objectURLs w' = previewOf (selfieFile w)).
  { rewrite Hurls', Hurls. set_solver. }
  split_and!; try done.
  - by rewrite Hsf', Hsf.
  - by rewrite Hfiles', Hsf.
  - rewrite Hrev'. apply elem_of_app. right. by apply list_elem_of_singleton.
  - rewrite Hurls'. set_solver.
Qed.

Lemma select_then_remove_witness :
  objectURLs (FileUpload.handleFileRemove "id"
                (FileUpload.handleFileSelect idJpeg "id" initialWorld)) = ∅.
Proof.
  exact (proj1 (proj2 (proj2 (proj2
           (select_then_remove idJpeg initialWorld eq_refl previews_ok_initial))))).
Defined.

(** ** The projection: which bodies, which fields *)

Lemma transformedResult_succeeds body :
  nullish body = false → ∃ r, transformedResult body = inr r.
Proof. destruct body; intros Hn; try done; by eexists. Qed.

Lemma transformedResult_throws body :
  nullish body = true → ∃ e, transformedResult body = inl e.
Proof. destruct body; intros Hn; try done; by eexists. Qed.

(** X6.  The projection throws exactly on [null] (and [undefined]).  A
    body that is neither [null] nor an object (a number, a string, a
    boolean, an array) is projected like the empty object: every field
    takes its default. *)
Theorem transformedResult_non_object (body : JsVal) :
  ((∃ r, transformedResult body = inr r) ↔ nullish body = false)
  ∧ (nullish body = false → (∀ props, body ≠ JObj props) →
     transformedResult body = transformedResult (JObj ∅)).
Proof.
  split.
  - split; [|apply transformedResult_succeeds].
    intros [r Hr]. destruct (nullish body) eqn:Hn; [|done].
    destruct (transformedResult_throws body Hn) as [e He]. congruence.
  - intros Hn Hobj. destruct body; try done. by destruct (Hobj props).
Qed.

Lemma transformedResult_non_object_witness :
  transformedResult (JArr [JNum 1]) = transformedResult (JObj ∅).
Proof.
  apply (transformedResult_non_object (JArr [JNum 1])); [reflexivity | discriminate].
Defined.

(** X7.  The projection looks at nothing but the thirteen properties it
    reads: adding, changing or deleting any other property of the body
    does not change the result. *)
Theorem transformedResult_ignores (props : gmap string JsVal) (k : string) (v : JsVal) :
  k ∉ readKeys →
  transformedResult (JObj (<[k := v]> props)) = transformedResult (JObj props)
  ∧ transformedResult (JObj (delete k props)) = transformedResult (JObj props).
Proof.
  intros Hk.
  assert (Hins : ∀ key, key ∈ readKeys → <[k := v]> props !! key = props !! key).
  { intros key Hkey. apply lookup_insert_ne. by intros ->. }
  assert (Hdel : ∀ key, key ∈ readKeys → delete k props !! key = props !! key).
  { intros key Hkey. apply lookup_delete_ne. by intros ->. }
  rewrite !transformedResult_object. cbv zeta.
  split.
  - rewrite !Hins by (unfold readKeys; set_solver). done.
  - rewrite !Hdel by (unfold readKeys; set_solver). done.
Qed.

Lemma transformedResult_ignores_witness :
  transformedResult (JObj (<["debug" := JBool true]> janeDoe))
  = transformedResult (JObj janeDoe).
Proof.
  apply (transformedResult_ignores janeDoe "debug" (JBool true)).
  unfold readKeys. intros Hin. by repeat (apply elem_of_cons in Hin as [?|Hin]; [done|]);
    apply elem_of_nil in Hin.
Defined.

(** X8.  Whatever the object, every projected field whose default is a
    non-empty string, a list or an object is truthy: the result card never
    has an empty name, date of birth, id number, document type, risk
    level, summary or status to show.  (The fraud summary, whose default
    is the empty string, is the exception.) *)
Theorem transformedResult_truthy (props : gmap string JsVal) :
  ∃ r,
    transformedResult (JObj props) = inr r
    ∧ truthy (name (extracted r)) = true
    ∧ truthy (dob (extracted r)) = true
    ∧ truthy (id_number (extracted r)) = true
    ∧ truthy (document_type (extracted r)) = true
    ∧ truthy (risk_level (fraud_flags r)) = true
    ∧ truthy (flags (fraud_flags r)) = true
    ∧ truthy (age_validation (details (fraud_flags r))) = true
    ∧ truthy (expiry_validation (details (fraud_flags r))) = true
    ∧ truthy (name_validation (details (fraud_flags r))) = true
    ∧ truthy (id_validation (details (fraud_flags r))) = true
    ∧ truthy (consistency_issues (details (fraud_flags r))) = true
    ∧ truthy (summary r) = true
    ∧ truthy (status r) = true
    ∧ (props !! "fraud_flags" = None →
       truthy (fraud_summary (fraud_flags r)) = false).
Proof.
  assert (Hor : ∀ a d, truthy d = true → truthy (a ||| d) = true).
  { intros a d Hd. unfold js_or. by destruct (truthy a) eqn:Ha. }
  eexists. split; [apply transformedResult_object|]. cbn.
  split_and!; try (by apply Hor).
  by intros ->.
Qed.

(** ** A whole verification attempt *)

Ltac trace_norm :=
  unfold installed, fetched, revoked, notified, created; cbn;
  rewrite ?omap_app; cbn; repeat rewrite (right_id_L [] (++));
  rewrite <- ?(assoc_L (++)); cbn.

(** X9.  With both files staged, one run of [handleVerifyKYC] issues
    exactly one request, a POST to the verify endpoint whose form data
    are the two staged files under the names [id_card] and [selfie];
    installs step 2, step 3 and one final state, which is never loading;
    and ends in step 4 with a result exactly when the response has a 2xx
    status and a JSON body that is not [null]: in every other case (also
    a body that does not parse, or [null]) it ends in step 1 with an
    error that starts with "Verification failed: ".  No request remains
    pending, and files, slots and object URLs are untouched. *)
Theorem handleVerifyKYC_run
    (w : World) (fetch : Request → Try Response) (id sf : File) :
  idCard (files w) = Some id →
  selfie (files w) = Some sf →
  let w' := handleVerifyKYC fetch w in
  let req := {| url := verifyURL; method := "POST"; headers := [];
                formData := [("id_card", id); ("selfie", sf)] |} in
  fetched (trace w') = (fetched (trace w) ++ [req])%list
  ∧ installed (trace w')
    = (installed (trace w)
       ++ [ {| step := 2; isLoading := true; result := None; error := None |};
            analyzing; verification w' ])%list
  ∧ isLoading (verification w') = false
  ∧ (step (verification w') = 4 ∧ is_Some (result (verification w'))
     ∧ error (verification w') = None
     ∨ step (verification w') = 1 ∧ result (verification w') = None
       ∧ ∃ msg, error (verification w') = Some ("Verification failed: " +:+ msg))
  ∧ (step (verification w') = 4
     ↔ ∃ response body,
         fetch req = inr response ∧ ok response = true
         ∧ json response = inr body ∧ nullish body = false)
  ∧ pendingVerify w' = pendingVerify w
  ∧ files w' = files w
  ∧ idCardFile w' = idCardFile w
  ∧ selfieFile w' = selfieFile w
  ∧ objectURLs w' = objectURLs w.
Proof.
  intros Hid Hsf w' req. subst w'.
  unfold handleVerifyKYC, handleVerifyKYC_start. rewrite Hid, Hsf.
  fold req. unfold handleVerifyKYC_resume.
  destruct (fetch req) as [e | response] eqn:Hfetch; cbn.
  { split_and!; try done; try (by trace_norm).
    - right. split_and!; try done. by eexists.
    - split; [done | by intros (? & ? & ? & _)]. }
  destruct (ok response) eqn:Hok; cbn.
  2:{ split_and!; try done; try (by trace_norm).
      - right. split_and!; try done. by eexists.
      - split; [done|]. intros (? & ? & [= <-] & ? & _). congruence. }
  destruct (json response) as [e | body] eqn:Hjson; cbn.
  { split_and!; try done; try (by trace_norm).
    - right. split_and!; try done. by eexists.
    - split; [done|]. intros (? & ? & [= <-] & _ & ? & _). congruence. }
  destruct (nullish body) eqn:Hn.
  - destruct (transformedResult_throws body Hn) as [e ->]. cbn.
    split_and!; try done; try (by trace_norm).
    + right. split_and!; try done. by eexists.
    + split; [done|]. intros (? & ? & [= <-] & _ & ? & ?). congruence.
  - destruct (transformedResult_succeeds body Hn) as [r ->]. cbn.
    split_and!; try done; try (by trace_norm).
    + left. by split_and!.
    + split; [|done]. intros _. by exists response, body.
Qed.

Lemma handleVerifyKYC_run_witness :
  step (verification (handleVerifyKYC (λ _, inr http204) stagedWorld)) = 1
  ∧ length (fetched (trace (handleVerifyKYC (λ _, inr http204) stagedWorld))) = 1%nat.
Proof.
  destruct (handleVerifyKYC_run stagedWorld (λ _, inr http204) idJpeg selfiePng
              eq_refl eq_refl)
    as (Hfetched & _ & _ & Hend & Hiff & _).
  split.
  - destruct Hend as [(H4 & _) | (H1 & _)]; [|exact H1].
    apply Hiff in H4 as (response & body & [= <-] & _ & Hjson & _).
    discriminate Hjson.
  - rewrite Hfetched. by vm_compute.
Defined.

(** X10.  None of the handlers of [KYCApp] creates or releases an object
    URL, or touches the slots of [FileUpload]: in particular starting
    over, which clears the files [KYCApp] holds, releases no preview. *)
Theorem KYCApp_never_releases (w : World) :
  let untouched (w' : World) :=
    objectURLs w' = objectURLs w
    ∧ nextURL w' = nextURL w
    ∧ created (trace w') = created (trace w)
    ∧ revoked (trace w') = revoked (trace w)
    ∧ idCardFile w' = idCardFile w
    ∧ selfieFile w' = selfieFile w in
  (∀ fs, untouched (handleFilesSelect fs w))
  ∧ (∀ fetch, untouched (handleVerifyKYC fetch w))
  ∧ (∀ outcome, untouched (handleVerifyKYC_resume outcome w))
  ∧ untouched (handleStartOver w)
  ∧ files (handleStartOver w) = {| idCard := None; selfie := None |}
  ∧ (∀ outcome now, untouched (checkApiHealth outcome now w)).
Proof.
  assert (Hresume : ∀ outcome w0,
            objectURLs (handleVerifyKYC_resume outcome w0) = objectURLs w0
            ∧ nextURL (handleVerifyKYC_resume outcome w0) = nextURL w0
            ∧ created (trace (handleVerifyKYC_resume outcome w0)) = created (trace w0)
            ∧ revoked (trace (handleVerifyKYC_resume outcome w0)) = revoked (trace w0)
            ∧ idCardFile (handleVerifyKYC_resume outcome w0) = idCardFile w0
            ∧ selfieFile (handleVerifyKYC_resume outcome w0) = selfieFile w0).
  { intros outcome w0.
    destruct (handleVerifyKYC_resume_installs outcome w0) as (v & _ & ->).
    cbn. split_and!; try done; by trace_simpl. }
  cbv zeta. split; [|split; [|split; [|split; [|split]]]].
  - intros fs. unfold handleFilesSelect.
    destruct (result (verification w)); cbn; split_and!; try done; by trace_simpl.
  - intros fetch. unfold handleVerifyKYC, handleVerifyKYC_start.
    destruct (idCard (files w)) as [id|];
      [destruct (selfie (files w)) as [sf|] |];
      [| cbn; split_and!; try done; by trace_simpl ..].
    cbn -[handleVerifyKYC_resume].
    set (o := fetch _). set (w0 := setPending _ _).
    destruct (Hresume o w0) as (H1 & H2 & H3 & H4 & H5 & H6).
    rewrite H1, H2, H3, H4, H5, H6. subst w0.
    cbn. split_and!; try done; by trace_norm.
  - intros outcome. apply Hresume.
  - cbn. split_and!; try done; by trace_simpl.
  - done.
  - intros outcome now. unfold checkApiHealth.
    destruct outcome as [e | response]; cbn;
      [| destruct (ok response); cbn; [destruct (json response); cbn |]];
      split_and!; try done; by trace_simpl.
Qed.

(** ** More invariants of reachable sessions *)

Lemma onFilesSelect_cells fs w :
  verification (onFilesSelect fs w) = verification w
  ∨ verification (onFilesSelect fs w) = idle.
Proof.
  unfold onFilesSelect, handleFilesSelect. cbn.
  destruct (result (verification w)); [by right | by left].
Qed.

Lemma onFilesSelect_apiHealth fs w :
  apiHealth (onFilesSelect fs w) = apiHealth w.
Proof.
  unfold onFilesSelect, handleFilesSelect. cbn.
  by destruct (result (verification w)).
Qed.

Lemma settled_form_idle : settled_form idle.
Proof. by left. Qed.

(** A handler leaves the workflow state alone or leaves it in one of the
    four settled forms. *)
Lemma handle_verification e w :
  verification (handle e w) = verification w
  ∨ settled_form (verification (handle e w)).
Proof.
  destruct e as [f type | type | | outcome | | outcome now]; cbn.
  - unfold FileUpload.handleFileSelect.
    destruct (FileUpload.validateFile f); [by left|].
    destruct (String.eqb type "id");
      [destruct (idCardFile w) | destruct (selfieFile w)]; cbn;
      match goal with
      | |- context [onFilesSelect ?fs ?w0] =>
          destruct (onFilesSelect_cells fs w0) as [-> | ->];
          [by left | right; apply settled_form_idle]
      end.
  - unfold FileUpload.handleFileRemove.
    destruct (String.eqb type "id");
      [destruct (idCardFile w) | destruct (selfieFile w)]; cbn;
      match goal with
      | |- context [onFilesSelect ?fs ?w0] =>
          destruct (onFilesSelect_cells fs w0) as [-> | ->];
          [by left | right; apply settled_form_idle]
      end.
  - unfold handleVerifyKYC_start.
    destruct (idCard (files w)), (selfie (files w)); cbn; try by left.
    right. by right; left.
  - destruct (handleVerifyKYC_resume_installs outcome w) as (v & Hv & ->). cbn.
    right. destruct Hv as [[r ->] | [msg ->]].
    + right; right; left. by eexists.
    + right; right; right. by eexists.
  - right. by left.
  - left. apply checkApiHealth_frame.
Qed.

Lemma reachable_settled_form w : reachable w → settled_form (verification w).
Proof.
  induction 1 as [|e w Hw IH He]; [by left|].
  unfold dispatch. rewrite (proj1 (render_frame (handle e w))).
  destruct (handle_verification e w) as [-> | Hs]; done.
Qed.

(** X11.  Between two events the workflow state is exactly one of four:
    idle (step 1), analyzing (step 3, loading), complete (step 4, with
    the result) or failed (step 1, with the error).  So a result is
    there exactly in step 4, an error only in step 1, the loading flag
    is set exactly in step 3, and step 2 is never what the page rests
    on. *)
Theorem reachable_settled (w : World) :
  reachable w →
  settled_form (verification w)
  ∧ (step (verification w) = 4 ↔ is_Some (result (verification w)))
  ∧ (is_Some (error (verification w)) →
     step (verification w) = 1 ∧ result (verification w) = None
     ∧ isLoading (verification w) = false)
  ∧ (isLoading (verification w) = true ↔ step (verification w) = 3)
  ∧ step (verification w) ≠ 2.
Proof.
  intros Hs%reachable_settled_form. split; [done|].
  destruct Hs as [-> | [-> | [[r ->] | [msg ->]]]]; cbn;
    (split_and!; [split | | split | ]); try done;
    try (by intros [? ?]); try (by eexists).
Qed.

Lemma reachable_settled_witness :
  step (verification (dispatch ClickVerify stagedWorld)) ≠ 2
  ∧ step (verification (dispatch ClickVerify stagedWorld)) = 3.
Proof.
  assert (Hr : reachable (dispatch ClickVerify stagedWorld)).
  { apply (run_reachable
             [SelectFile idJpeg "id"; SelectFile selfiePng "selfie"; ClickVerify]
             initialWorld); [apply reachable_init | by vm_compute]. }
  destruct (reachable_settled _ Hr) as (_ & _ & _ & Hload & Hne).
  split; [exact Hne | apply Hload; by vm_compute].
Defined.

Lemma handleVerifyKYC_resume_files outcome w :
  files (handleVerifyKYC_resume outcome w) = files w
  ∧ idCardFile (handleVerifyKYC_resume outcome w) = idCardFile w
  ∧ selfieFile (handleVerifyKYC_resume outcome w) = selfieFile w
  ∧ apiHealth (handleVerifyKYC_resume outcome w) = apiHealth w.
Proof.
  by destruct (handleVerifyKYC_resume_installs outcome w) as (v & _ & ->).
Qed.

(** X12.  At most one verify request is ever in flight, and one is in
    flight exactly while the loading flag is set.  During that time the
    page offers nothing but the health refresh: no file can be selected
    or removed, no second verification started, nothing reset; so the
    files [KYCApp] holds when the response arrives are the files that
    were sent. *)
Theorem one_request_in_flight (w : World) :
  reachable w →
  (pendingVerify w ≤ 1)%nat
  ∧ (pendingVerify w = 1%nat ↔ isLoading (verification w) = true)
  ∧ (isLoading (verification w) = true →
     ∀ e, enabled e w = true →
       ((∃ outcome, e = VerifySettled outcome)
        ∨ (∃ outcome now, e = RefreshHealth outcome now))
       ∧ files (dispatch e w) = files w).
Proof.
  intros (_ & _ & Hbusy & Hquiet)%reachable_session_ok.
  destruct (isLoading (verification w)) eqn:Hl.
  - destruct (Hbusy eq_refl) as [Hone Hnone]. rewrite Hone.
    split_and!; [lia | done |].
    intros _ e He. unfold dispatch. rewrite (proj2 (proj2 (proj2 (render_frame _)))).
    destruct e as [f type | type | | outcome | | outcome now]; cbn in He |- *.
    + by rewrite Hl, andb_false_r in He.
    + by rewrite Hl, !andb_false_r in He.
    + unfold canProceed in He. rewrite Hl in He. cbn in He.
      destruct (idCard (files w)), (selfie (files w));
        by rewrite ?andb_false_r in He.
    + split; [left; by exists outcome | apply handleVerifyKYC_resume_files].
    + rewrite Hnone in He. by cbn in He.
    + split; [right; by exists outcome, now | apply checkApiHealth_frame].
  - rewrite (Hquiet eq_refl). split_and!; [lia | done | done].
Qed.

Lemma one_request_in_flight_witness :
  pendingVerify (dispatch ClickVerify stagedWorld) = 1%nat
  ∧ enabled ClickVerify (dispatch ClickVerify stagedWorld) = false.
Proof.
  assert (Hr : reachable (dispatch ClickVerify stagedWorld)).
  { apply (run_reachable
             [SelectFile idJpeg "id"; SelectFile selfiePng "selfie"; ClickVerify]
             initialWorld); [apply reachable_init | by vm_compute]. }
  destruct (one_request_in_flight _ Hr) as (_ & Hiff & Honly).
  split; [apply Hiff; by vm_compute|].
  destruct (enabled ClickVerify (dispatch ClickVerify stagedWorld)) eqn:He; [|done].
  destruct (Honly ltac:(by vm_compute) ClickVerify He) as [[[o Ho] | (o & n & Ho)] _];
    discriminate Ho.
Defined.

Lemma render_id w : result (verification w) = None → render w = w.
Proof. unfold render. by intros ->. Qed.

Lemma files_in_sync_None w :
  result (verification w) = None →
  idCard (files w) = file <$> idCardFile w →
  selfie (files w) = file <$> selfieFile w →
  files_in_sync w.
Proof. unfold files_in_sync. by intros ->. Qed.

Lemma files_in_sync_dispatch e w :
  session_ok w → files_in_sync w → enabled e w = true →
  files_in_sync (dispatch e w).
Proof.
  intros (_ & _ & Hbusy & Hquiet) Hsync He. unfold dispatch.
  destruct e as [f type | type | | outcome | | outcome now]; cbn [handle].
  - (* select *)
    cbn in He. unfold files_in_sync in Hsync.
    destruct (result (verification w)) eqn:Hres; [done|].
    destruct Hsync as [Hi Hs].
    destruct (handleFileSelect_workflow f type w Hres) as (Hv & _ & _).
    rewrite render_id by (by rewrite Hv).
    apply files_in_sync_None; [by rewrite Hv | |].
    all: destruct (FileUpload.validateFile f) eqn:Hval;
      [unfold FileUpload.handleFileSelect; by rewrite Hval|].
    all: destruct (decide (type = "id")) as [-> | Hne];
      [ destruct (handleFileSelect_accepts_id f w Hval)
          as (Hc1 & Hc2 & _ & _ & _ & _ & _ & Hfs)
      | destruct (handleFileSelect_accepts_other f type w Hval Hne)
          as (Hc1 & Hc2 & _ & _ & _ & _ & _ & Hfs) ];
      by rewrite Hfs, ?Hc1, ?Hc2.
  - (* remove *)
    cbn in He. unfold files_in_sync in Hsync.
    destruct (result (verification w)) eqn:Hres; [done|].
    destruct (handleFileRemove_workflow type w Hres) as (Hv & _ & _).
    rewrite render_id by (by rewrite Hv).
    apply files_in_sync_None; [by rewrite Hv | |].
    all: destruct (decide (type = "id")) as [-> | Hne];
      [ destruct (handleFileRemove_id w) as (Hc1 & Hc2 & _ & _ & _ & _ & _ & Hfs)
      | destruct (handleFileRemove_other type w Hne)
          as (Hc1 & Hc2 & _ & _ & _ & _ & _ & Hfs) ];
      by rewrite Hfs, ?Hc1, ?Hc2.
  - (* verification starts *)
    cbn in He. unfold files_in_sync in Hsync.
    destruct (result (verification w)) eqn:Hres; [done|].
    destruct Hsync as [Hi Hs].
    apply andb_true_iff in He as [_ (Hid & Hsf & _)%canProceed_true].
    destruct (idCard (files w)) as [id|] eqn:Eid; [|done].
    destruct (selfie (files w)) as [sf|] eqn:Esf; [|done].
    destruct (handleVerifyKYC_start_staged w id sf Eid Esf)
      as (w1 & req & -> & _ & Hv & Hf & Hic & Hsc & _).
    cbn [fst]. rewrite render_id by (by rewrite Hv).
    apply files_in_sync_None; [by rewrite Hv | |]; rewrite Hf, ?Hic, ?Hsc; congruence.
  - (* the request settles *)
    cbn in He. unfold files_in_sync in Hsync.
    destruct (isLoading (verification w)) eqn:Hl;
      [| rewrite (Hquiet eq_refl) in He; done].
    destruct (Hbusy eq_refl) as [_ Hnone]. rewrite Hnone in Hsync.
    destruct Hsync as [Hi Hs].
    destruct (handleVerifyKYC_resume_files outcome w) as (Hf & Hic & Hsc & _).
    destruct (result (verification (handleVerifyKYC_resume outcome w))) eqn:Hres.
    + unfold render, files_in_sync. rewrite Hres. cbn. by rewrite Hres.
    + rewrite render_id by done.
      apply files_in_sync_None; [done | |]; rewrite Hf, ?Hic, ?Hsc; congruence.
  - (* start over *)
    cbn in He. unfold files_in_sync in Hsync.
    destruct (result (verification w)) eqn:Hres; [|done].
    destruct Hsync as [Hi Hs].
    rewrite render_id by done.
    apply files_in_sync_None; [done | |]; cbn; by rewrite ?Hi, ?Hs.
  - (* the health probe *)
    destruct (checkApiHealth_frame outcome now w) as (Hv & Hf & Hic & Hsc & _).
    unfold files_in_sync in Hsync.
    destruct (result (verification w)) eqn:Hres.
    + unfold render, files_in_sync. rewrite Hv, Hres. cbn. by rewrite ?Hv, ?Hres.
    + destruct Hsync as [Hi Hs]. rewrite render_id by (by rewrite Hv).
      apply files_in_sync_None; [by rewrite Hv | |]; rewrite Hf, ?Hic, ?Hsc; congruence.
Qed.





(** X13.  In every reachable session, while the upload view is shown
    the files [KYCApp] holds (the ones a verification would send) are
    exactly the files staged in the two slots of [FileUpload], whose
    previews the user sees; while a result is shown the component is
    unmounted. *)
Theorem reachable_files_in_sync (w : World) :
  reachable w →
  files_in_sync w
  ∧ (result (verification w) = None →
     idCard (files w) = file <$> idCardFile w
     ∧ selfie (files w) = file <$> selfieFile w
     ∧ (canProceed w = true →
        is_Some (idCardFile w) ∧ is_Some (selfieFile w))).
Proof.
  intros Hr.
  assert (Hsync : files_in_sync w).
  { induction Hr as [|e w Hw IH He]; [done|].
    apply files_in_sync_dispatch; [by apply reachable_session_ok | done | done]. }
  split; [done|]. intros Hres. unfold files_in_sync in Hsync. rewrite Hres in Hsync.
  destruct Hsync as [Hi Hs]. split_and!; [done | done |].
  intros (Hid & Hsf & _)%canProceed_true. rewrite Hi in Hid. rewrite Hs in Hsf.
  by destruct (idCardFile w), (selfieFile w).
Qed.

Lemma reachable_files_in_sync_witness :
  idCard (files stagedWorld) = file <$> idCardFile stagedWorld
  ∧ selfie (files stagedWorld) = file <$> selfieFile stagedWorld.
Proof.
  assert (Hr : reachable stagedWorld).
  { apply (run_reachable [SelectFile idJpeg "id"; SelectFile selfiePng "selfie"]
             initialWorld); [apply reachable_init | by vm_compute]. }
  destruct (reachable_files_in_sync stagedWorld Hr) as [_ H].
  destruct (H eq_refl) as (Hi & Hs & _). by split.
Defined.

(** ** The health record and its status line *)

Lemma handle_apiHealth e w :
  (∀ outcome now, e ≠ RefreshHealth outcome now) →
  apiHealth (handle e w) = apiHealth w.
Proof.
  intros Hne.
  destruct e as [f type | type | | outcome | | outcome now]; cbn.
  - unfold FileUpload.handleFileSelect.
    destruct (FileUpload.validateFile f); [done|].
    destruct (String.eqb type "id");
      [destruct (idCardFile w) | destruct (selfieFile w)]; cbn;
      by rewrite onFilesSelect_apiHealth.
  - unfold FileUpload.handleFileRemove.
    destruct (String.eqb type "id");
      [destruct (idCardFile w) | destruct (selfieFile w)]; cbn;
      by rewrite onFilesSelect_apiHealth.
  - unfold handleVerifyKYC_start.
    by destruct (idCard (files w)), (selfie (files w)).
  - apply handleVerifyKYC_resume_files.
  - done.
  - by destruct (Hne outcome now).
Qed.

Lemma checkApiHealth_health_ok outcome now w :
  health_ok (apiHealth (checkApiHealth outcome now w)).
Proof.
  unfold checkApiHealth, health_ok.
  destruct outcome as [e | response]; cbn;
    [| destruct (ok response); cbn; [destruct (json response); cbn |]];
    first [right; left; by split_and! | right; right; by split_and!].
Qed.

Lemma render_apiHealth w : apiHealth (render w) = apiHealth w.
Proof. unfold render. by destruct (result (verification w)). Qed.

(** X14.  In every reachable session the health record is consistent:
    never probed (status "unknown", nothing else set), healthy (checked,
    payload kept, no error) or in error (checked, message kept, no
    payload); nothing but a health probe changes it.  The status line
    reads "Checking..." exactly as long as no probe has settled, "Online"
    exactly when a payload is held and "Offline" exactly when an error
    is. *)
Theorem reachable_health_ok (w : World) :
  reachable w →
  health_ok (apiHealth w)
  ∧ (apiStatusText (apiHealth w) = "Checking..." ↔ lastChecked (apiHealth w) = None)
  ∧ (apiStatusText (apiHealth w) = "Online" ↔ is_Some (data (apiHealth w)))
  ∧ (apiStatusText (apiHealth w) = "Offline" ↔ is_Some (api_error (apiHealth w)))
  ∧ (∀ e, (∀ outcome now, e ≠ RefreshHealth outcome now) →
          apiHealth (dispatch e w) = apiHealth w).
Proof.
  intros Hr.
  assert (Hok : health_ok (apiHealth w)).
  { induction Hr as [|e w Hw IH He]; [by left|].
    unfold dispatch. rewrite render_apiHealth.
    destruct e as [f type | type | | outcome | | outcome now];
      try (by rewrite handle_apiHealth).
    apply checkApiHealth_health_ok. }
  split; [done|].
  split_and!.
  - unfold apiStatusText.
    destruct Hok as [(-> & -> & _) | [(-> & [? ->] & _) | (-> & [? ->] & _)]]; by cbn.
  - unfold apiStatusText.
    destruct Hok as [(-> & _ & -> & _) | [(-> & _ & [? ->] & _) | (-> & _ & -> & _)]];
      cbn; split; try done; by intros [? ?].
  - unfold apiStatusText.
    destruct Hok as [(-> & _ & _ & ->) | [(-> & _ & _ & ->) | (-> & _ & _ & [? ->])]];
      cbn; split; try done; by intros [? ?].
  - intros e Hne. unfold dispatch. rewrite render_apiHealth. by apply handle_apiHealth.
Qed.

Lemma reachable_health_ok_witness :
  apiStatusText (apiHealth (dispatch (RefreshHealth (inr http204) "10:15:00 AM")
                              initialWorld)) = "Offline".
Proof.
  assert (Hr : reachable (dispatch (RefreshHealth (inr http204) "10:15:00 AM")
                            initialWorld)).
  { apply (run_reachable [RefreshHealth (inr http204) "10:15:00 AM"] initialWorld);
      [apply reachable_init | by vm_compute]. }
  destruct (reachable_health_ok _ Hr) as (_ & _ & _ & Hoff & _).
  apply Hoff. eexists. by vm_compute.
Defined.

(** ** Presentation: progress bars and result card *)

Lemma to_nat_small c : c ≤ 0 → Z.to_nat c = 0%nat.
Proof. lia. Qed.

Ltac zcases :=
  repeat match goal with
  | |- context [?a <=? ?b] => destruct (Z.leb_spec a b)
  | |- context [?a <? ?b] => destruct (Z.ltb_spec a b)
  | |- context [?a =? ?b] => destruct (Z.eqb_spec a b)
  end;
  try lia; try done.

(** X15.  The progress bar, for any step number it is given.  The title
    and description shown are those of circle [currentStep], and there
    are none when [currentStep] is outside 1..4; the filled circles are
    exactly the first [currentStep] ones; the only circle that can pulse
    is the current one, and it does exactly while loading; the connectors
    drawn filled are those of the circles before the current one, and the
    last circle has none. *)
Theorem progress_bar (currentStep : Z) (isLoading : bool) :
  (ProgressBar.current currentStep = None ↔ currentStep < 1 ∨ 4 < currentStep)
  ∧ (∀ s, ProgressBar.current currentStep = Some s →
          ProgressBar.number s = currentStep ∧ s ∈ ProgressBar.steps)
  ∧ List.filter (ProgressBar.filled currentStep) ProgressBar.steps
    = take (Z.to_nat currentStep) ProgressBar.steps
  ∧ List.filter (ProgressBar.pulses currentStep isLoading) ProgressBar.steps
    = (if isLoading then option_list (ProgressBar.current currentStep) else [])
  ∧ (∀ i s, ProgressBar.steps !! i = Some s →
       (ProgressBar.connectorFilled currentStep i s = true
        ↔ (i < 3)%nat ∧ ProgressBar.number s < currentStep)).
Proof.
  assert (Hcases : currentStep < 1 ∨ currentStep = 1 ∨ currentStep = 2
                   ∨ currentStep = 3 ∨ currentStep = 4 ∨ 4 < currentStep) by lia.
  split_and!.
  - unfold ProgressBar.current, js_index.
    destruct Hcases as [H | [-> | [-> | [-> | [-> | H]]]]];
      try (split; [done | lia]).
    + split; [lia|]. intros _. zcases.
    + split; [lia|]. intros _. destruct (Z.ltb_spec (currentStep - 1) 0); [done|].
      apply lookup_ge_None. cbn. lia.
  - intros s. unfold ProgressBar.current, js_index.
    destruct Hcases as [H | [-> | [-> | [-> | [-> | H]]]]];
      try (by intros [= <-]; split; [done | set_solver]).
    + zcases.
    + destruct (Z.ltb_spec (currentStep - 1) 0); [done|].
      intros Hs. apply lookup_lt_Some in Hs. cbn in Hs. lia.
  - destruct Hcases as [H | [-> | [-> | [-> | [-> | H]]]]]; try done.
    + rewrite to_nat_small by lia. cbn. unfold ProgressBar.filled. cbn.
      zcases.
    + rewrite take_ge by (cbn; lia). cbn. unfold ProgressBar.filled. cbn.
      zcases.
  - destruct isLoading.
    + unfold ProgressBar.current, js_index, ProgressBar.pulses. cbn.
      rewrite !andb_true_r.
      destruct Hcases as [H | [-> | [-> | [-> | [-> | H]]]]]; try done.
      * destruct (Z.ltb_spec (currentStep - 1) 0); [|lia].
        zcases.
      * destruct (Z.ltb_spec (currentStep - 1) 0); [lia|].
        rewrite (proj2 (lookup_ge_None _ _)) by (cbn; lia).
        zcases.
    + unfold ProgressBar.pulses. cbn. by rewrite !andb_false_r.
  - intros i s Hs. unfold ProgressBar.connectorFilled.
    rewrite andb_true_iff, !Z.ltb_lt. cbn. lia.
Qed.

(** X16.  What the progress bar shows in a reachable session: a title
    is always there, and it is "Upload Documents", "Analyzing" or
    "Complete" ("Uploading" is never what the page rests on); it is
    "Complete" exactly when a result is shown; and a circle pulses exactly
    while loading, namely the "Analyzing" one. *)
Theorem progress_bar_reachable (w : World) :
  reachable w →
  ∃ s,
    ProgressBar.current (step (verification w)) = Some s
    ∧ (ProgressBar.title s = "Upload Documents" ∨ ProgressBar.title s = "Analyzing"
       ∨ ProgressBar.title s = "Complete")
    ∧ (ProgressBar.title s = "Complete" ↔ is_Some (result (verification w)))
    ∧ (ProgressBar.title s = "Analyzing" ↔ isLoading (verification w) = true)
    ∧ List.filter (ProgressBar.pulses (step (verification w))
                     (isLoading (verification w))) ProgressBar.steps
      = (if isLoading (verification w) then [s] else []).
Proof.
  intros [-> | [-> | [[r ->] | [msg ->]]]]%reachable_settled_form;
    eexists; (split; [reflexivity|]); cbn;
    (split_and!; [tauto | split | split | done]); try done;
    try (by intros [? ?]); try (by eexists).
Qed.

Lemma progress_bar_reachable_witness :
  ∃ s,
    ProgressBar.current (step (verification (dispatch ClickVerify stagedWorld))) = Some s
    ∧ ProgressBar.title s = "Analyzing".
Proof.
  assert (Hr : reachable (dispatch ClickVerify stagedWorld)).
  { apply (run_reachable
             [SelectFile idJpeg "id"; SelectFile selfiePng "selfie"; ClickVerify]
             initialWorld); [apply reachable_init | by vm_compute]. }
  destruct (progress_bar_reachable _ Hr) as (s & Hs & _ & _ & Han & _).
  exists s. split; [exact Hs | apply Han; by vm_compute].
Defined.

(** X17.  The progress bar component, for any step number it is given.
    The description shown while loading is that of the step whose id is
    [currentStep], and there is none outside 1..4; the completed steps
    are exactly the first [currentStep - 1] ones; the only active step is
    that one step; no step is both completed and active; and an icon
    spins only on the active step, and only while loading. *)
Theorem progress_bar_component (currentStep : Z) (isLoading : bool) :
  (ProgressBarComponent.info currentStep = None ↔ currentStep < 1 ∨ 4 < currentStep)
  ∧ (∀ s, ProgressBarComponent.info currentStep = Some s →
          ProgressBarComponent.id s = currentStep ∧ s ∈ ProgressBarComponent.steps)
  ∧ ProgressBarComponent.info currentStep
    = js_index ProgressBarComponent.steps (currentStep - 1)
  ∧ List.filter (ProgressBarComponent.isCompleted currentStep) ProgressBarComponent.steps
    = take (Z.to_nat (currentStep - 1)) ProgressBarComponent.steps
  ∧ List.filter (ProgressBarComponent.isActive currentStep) ProgressBarComponent.steps
    = option_list (ProgressBarComponent.info currentStep)
  ∧ (∀ s, ProgressBarComponent.isCompleted currentStep s
          && ProgressBarComponent.isActive currentStep s = false)
  ∧ List.filter (ProgressBarComponent.spins currentStep isLoading)
                ProgressBarComponent.steps
    = (if isLoading then option_list (ProgressBarComponent.info currentStep) else []).
Proof.
  assert (Hcases : currentStep < 1 ∨ currentStep = 1 ∨ currentStep = 2
                   ∨ currentStep = 3 ∨ currentStep = 4 ∨ 4 < currentStep) by lia.
  assert (Hout : currentStep < 1 ∨ 4 < currentStep →
                 ProgressBarComponent.info currentStep = None
                 ∧ List.filter (ProgressBarComponent.isActive currentStep)
                     ProgressBarComponent.steps = []).
  { intros Hc. unfold ProgressBarComponent.info, ProgressBarComponent.isActive.
    cbn -[Z.eqb].
    split.
    - zcases.
    - zcases. }
  assert (Hidx : ProgressBarComponent.info currentStep
                 = js_index ProgressBarComponent.steps (currentStep - 1)).
  { destruct Hcases as [H | [-> | [-> | [-> | [-> | H]]]]]; try done.
    - rewrite (proj1 (Hout (or_introl H))). unfold js_index.
      zcases.
    - rewrite (proj1 (Hout (or_intror H))). unfold js_index.
      destruct (Z.ltb_spec (currentStep - 1) 0); [done|].
      symmetry. apply lookup_ge_None. cbn. lia. }
  assert (Hact : List.filter (ProgressBarComponent.isActive currentStep)
                   ProgressBarComponent.steps
                 = option_list (ProgressBarComponent.info currentStep)).
  { destruct Hcases as [H | [-> | [-> | [-> | [-> | H]]]]]; try done.
    - by destruct (Hout (or_introl H)) as [-> ->].
    - by destruct (Hout (or_intror H)) as [-> ->]. }
  split_and!; try done.
  - destruct Hcases as [H | [-> | [-> | [-> | [-> | H]]]]];
      try (split; [done | lia]).
    + split; [lia | intros _; by apply Hout; left].
    + split; [lia | intros _; by apply Hout; right].
  - intros s.
    destruct Hcases as [H | [-> | [-> | [-> | [-> | H]]]]];
      try (by intros [= <-]; split; [done | set_solver]).
    + by rewrite (proj1 (Hout (or_introl H))).
    + by rewrite (proj1 (Hout (or_intror H))).
  - destruct Hcases as [H | [-> | [-> | [-> | [-> | H]]]]]; try done.
    + rewrite to_nat_small by lia. cbn. unfold ProgressBarComponent.isCompleted. cbn.
      zcases.
    + rewrite take_ge by (cbn; lia). cbn. unfold ProgressBarComponent.isCompleted. cbn.
      zcases.
  - intros s. unfold ProgressBarComponent.isCompleted, ProgressBarComponent.isActive.
    destruct (Z.ltb_spec (ProgressBarComponent.id s) currentStep),
      (Z.eqb_spec currentStep (ProgressBarComponent.id s)); try done. lia.
  - destruct isLoading.
    + rewrite <- Hact. apply filter_ext. intros s.
      unfold ProgressBarComponent.spins. by rewrite andb_true_r.
    + unfold ProgressBarComponent.spins. cbn. by rewrite !andb_false_r.
Qed.

(** X18.  The badge colour, the icon and the label of the trust score
    always agree, and the bands are: high from 80, medium from 50 up to
    79, low below 50. *)
Theorem trust_bands (score : Z) :
  (80 ≤ score
   ∧ ResultCard.getTrustScoreColor score = "success"
   ∧ ResultCard.getTrustScoreIcon score = "CheckCircle"
   ∧ ResultCard.getTrustScoreLabel score = "High Trust")
  ∨ (50 ≤ score < 80
     ∧ ResultCard.getTrustScoreColor score = "warning"
     ∧ ResultCard.getTrustScoreIcon score = "AlertTriangle"
     ∧ ResultCard.getTrustScoreLabel score = "Medium Trust")
  ∨ (score < 50
     ∧ ResultCard.getTrustScoreColor score = "destructive"
     ∧ ResultCard.getTrustScoreIcon score = "XCircle"
     ∧ ResultCard.getTrustScoreLabel score = "Low Trust").
Proof.
  unfold ResultCard.getTrustScoreColor, ResultCard.getTrustScoreIcon,
    ResultCard.getTrustScoreLabel.
  destruct (Z.leb_spec 80 score); [by left|].
  destruct (Z.leb_spec 50 score); [right; left | right; right]; by split_and!; try lia.
Qed.

Lemma replaceUnderscores_length k :
  String.length (ResultCard.replaceUnderscores k) = String.length k.
Proof. induction k as [|c k IH]; [done|]. cbn. by rewrite IH. Qed.

Lemma replaceUnderscores_clean k :
  "_"%char ∉ Stdlib.Strings.String.list_ascii_of_string (ResultCard.replaceUnderscores k).
Proof.
  induction k as [|c k IH]; cbn; [apply not_elem_of_nil|].
  apply not_elem_of_cons. split; [|done].
  destruct (Ascii.eqb_spec c "_"); [done | congruence].
Qed.

Lemma replaceUnderscores_idemp k :
  ResultCard.replaceUnderscores (ResultCard.replaceUnderscores k)
  = ResultCard.replaceUnderscores k.
Proof.
  induction k as [|c k IH]; [done|]. cbn. rewrite IH. f_equal.
  destruct (Ascii.eqb c "_") eqn:Hc; cbn; [done | by rewrite Hc].
Qed.

(** X19.  The additional fields of the result card are the entries of
    [extracted] other than name, dob and id_number, in their order, none
    of them lost; the label shown for a key is the key with every
    underscore replaced by a space (same length, no underscore left,
    nothing to replace a second time).  For the four fields the
    projection of [KYCApp] produces this is the single row "document
    type". *)
Theorem additionalFields_spec (entries : list (string * JsVal)) :
  (∀ label v,
     (label, v) ∈ ResultCard.additionalFields entries
     ↔ ∃ k, (k, v) ∈ entries ∧ (k ∉ ResultCard.ownRows)
            ∧ label = ResultCard.replaceUnderscores k)
  ∧ (ResultCard.additionalFields entries).*2
    = (List.filter (λ kv, negb (FileUpload.includes ResultCard.ownRows kv.1)) entries).*2
  ∧ (∀ label v, (label, v) ∈ ResultCard.additionalFields entries →
       "_"%char ∉ Stdlib.Strings.String.list_ascii_of_string label)
  ∧ (∀ k, String.length (ResultCard.replaceUnderscores k) = String.length k
          ∧ ResultCard.replaceUnderscores (ResultCard.replaceUnderscores k)
            = ResultCard.replaceUnderscores k)
  ∧ (∀ n d i t,
       ResultCard.additionalFields
         [("name", n); ("dob", d); ("id_number", i); ("document_type", t)]
       = [("document type", t)]).
Proof.
  assert (Hmem : ∀ label v,
            (label, v) ∈ ResultCard.additionalFields entries
            ↔ ∃ k, (k, v) ∈ entries ∧ (k ∉ ResultCard.ownRows)
                   ∧ label = ResultCard.replaceUnderscores k).
  { intros label v. unfold ResultCard.additionalFields.
    rewrite list_elem_of_In, in_map_iff. split.
    - intros ([k v'] & [= <- <-] & [Hin Hkeep]%filter_In).
      apply negb_true_iff in Hkeep. cbn [fst] in Hkeep.
      exists k. split_and!; [by apply list_elem_of_In | | done].
      intros Hown%includes_elem_of. congruence.
    - intros (k & Hin & Hown & ->). exists (k, v). split; [done|].
      apply filter_In. split; [by apply list_elem_of_In|]. cbn [fst].
      destruct (FileUpload.includes ResultCard.ownRows k) eqn:Hinc; [|done].
      by apply includes_elem_of in Hinc. }
  split_and!.
  - done.
  - unfold ResultCard.additionalFields.
    induction (List.filter _ entries) as [|kv l IH]; [done|]. cbn. by rewrite <- IH.
  - intros label v (k & _ & _ & ->)%Hmem. apply replaceUnderscores_clean.
  - intros k. split; [apply replaceUnderscores_length | apply replaceUnderscores_idemp].
  - done.
Qed.
